(** * BeastX configuration tool: packet catalog, transport, configuration store

    A shallow embedding of [beastx_app.py]: the report tables and
    [pad_packet], the [BeastXDevice] transport, [load_config] and
    [save_config], the handlers of [BeastXApp] that change the
    configuration or talk to the device, and its start-up and
    connection handling.

    Conventions of the embedding.
    - A Python [dict] is an association list in insertion order: a key
      that is already present keeps its place and its key object and
      only the value is replaced, which is what [json.dump] later
      writes.  The immutable report tables are finite maps.
    - A Python value read from JSON is a [pyval].  JSON numbers with a
      fraction or an exponent (Python floats) are left out: no field of
      the configuration is one.  A [string] stands for a Python [str],
      one [ascii] per character.
    - The configuration file is modelled by what reading it produces:
      nothing ([FMissing]), an exception ([FUnreadable]) or the value
      [json.load] returns ([FJson]).
    - A handler that raises leaves the state it had reached at the
      raise; the exception is part of its result.
    - [DEFAULT_CONFIG] is read by [load_config] only, and the program
      calls [load_config] once, in [BeastXApp.__init__], before any
      handler runs.  The list that [dict(DEFAULT_CONFIG)] shares with
      the loaded configuration is thus never read again through
      [DEFAULT_CONFIG], which the embedding takes as a constant.
    - Widgets are not modelled, apart from the status label, the
      connect button and the info tiles of the section on the window.
      [toast] is a log of the notifications shown, and a worker thread
      started by [_send] is a pending job that runs as one step.
    - A call scheduled with [self.after] from an [except ... as e]
      clause reads [e] when the event loop runs it.  Python unbinds
      [e] when the clause ends, and the call then raises [NameError]
      inside the event loop and shows nothing.  Whether the call runs
      while [e] is still bound is an input, [e_bound], of the step that
      runs the thread. *)

From Stdlib Require Import ZArith String Ascii List DecimalString Lia.
From Stdlib.Strings Require Import Byte.
From stdpp Require Import base option list gmap strings.
Import ListNotations.
Local Open Scope string_scope.
Local Open Scope list_scope.
Local Open Scope Z_scope.

(* ------------------------------------------------------------------ *)
(** ** Protocol packets *)

Definition REPORT_SIZE : nat := 64.

Definition POLL_PACKETS : gmap Z (list byte) :=
  <[125  := [x04; x73; x02; x06; x18; x00; x00; x00; x00; x04; x04; x04; x00; x00; x21; x00; x95; x01; x00; x00; x00; x00; x01; x00; x40; x06; x40; x06; x10; x00; xc8; x01]]> (
  <[250  := [x04; x71; x83; x06; x18; x00; x00; x00; x00; x04; x04; x04; x00; x00; x21; x00; x95; x01; x00; x01; x00; x00; x01; x00; x40; x06; x40; x06; x10; x00; xc8; x01]]> (
  <[500  := [x04; x74; x40; x06; x18; x00; x00; x00; x00; x04; x04; x04; x00; x00; x21; x00; x95; x01; x00; x02; x00; x00; x01; x00; x40; x06; x40; x06; x10; x00; xc8; x01]]> (
  <[1000 := [x04; x76; xc1; x06; x18; x00; x00; x00; x00; x04; x04; x04; x00; x00; x21; x00; x95; x01; x00; x03; x00; x00; x01; x00; x40; x06; x40; x06; x10; x00; xc8; x01]]> (
  <[2000 := [x04; x7d; x86; x06; x18; x00; x00; x00; x00; x04; x04; x04; x00; x00; x21; x00; x95; x01; x00; x04; x00; x00; x01; x00; x40; x06; x40; x06; x10; x00; xc8; x01]]> (
  <[4000 := [x04; x7f; x07; x06; x18; x00; x00; x00; x00; x04; x04; x04; x00; x00; x21; x00; x95; x01; x00; x05; x00; x00; x01; x00; x40; x06; x40; x06; x10; x00; xc8; x01]]>
  ∅))))).

Definition LOD_PACKETS : gmap Z (list byte) :=
  <[0 := [x04; x76; xc1; x06; x18; x00; x00; x00; x00; x04; x04; x04; x00; x00; x21; x00; x95; x01; x00; x03; x00; x00; x01; x00; x40; x06; x40; x06; x10; x00; xc8; x01]]> (
  <[1 := [x04; x72; x3d; x06; x18; x00; x00; x00; x00; x04; x04; x04; x00; x00; x21; x00; x95; x01; x00; x03; x00; x01; x01; x00; x40; x06; x40; x06; x10; x00; xc8; x01]]>
  ∅).

(** [buf = bytearray(REPORT_SIZE); buf[:len(data)] = data]: the slice
    assignment replaces the first [len(data)] bytes of the zero buffer
    (all of it when [data] is longer, and the buffer then grows). *)
Definition pad_packet (data : list byte) : list byte :=
  let buf := replicate REPORT_SIZE x00 in
  data ++ drop (length data) buf.

(* ------------------------------------------------------------------ *)
(** ** Exceptions and formatting *)

Inductive exn :=
| ValueError (msg : string)
| RuntimeError (msg : string)
| IndexError (msg : string)
| OverflowError (msg : string).

(** [str(e)] *)
Definition exn_str (e : exn) : string :=
  match e with
  | ValueError msg | RuntimeError msg | IndexError msg | OverflowError msg => msg
  end.

Inductive result (A : Type) :=
| Ok (a : A)
| Raise (e : exn).
Arguments Ok {A} a.
Arguments Raise {A} e.

(** [str(z)] for an int *)
Definition py_str_int (z : Z) : string := NilZero.string_of_int (Z.to_int z).

(** Commas between groups of three digits, on the reversed digits. *)
Fixpoint group3 (ds : list ascii) : list ascii :=
  match ds with
  | a :: b :: c :: (_ :: _) as rest => a :: b :: c :: ","%char :: group3 rest
  | _ => ds
  end.

(** [f"{z:,}"] for an int *)
Definition py_fmt_thousands (z : Z) : string :=
  let digits := list_ascii_of_string (py_str_int (Z.abs z)) in
  let body := string_of_list_ascii (rev (group3 (rev digits))) in
  if z <? 0 then "-" +:+ body else body.

(* ------------------------------------------------------------------ *)
(** ** Mouse device *)

(** The handle [hid.device()] behind [self._dev]: what the [k]-th
    [write] returns for a buffer, the text [error()] gives, and the
    buffers written so far. *)
Record HidDevice := mkHid {
  hid_write : nat → list byte → Z;
  hid_error : string;
  hid_written : list (list byte)
}.

(** [self._dev]: [None] or an open handle. *)
Definition BeastXDevice := option HidDevice.

Definition connected (d : BeastXDevice) : bool :=
  match d with Some _ => true | None => false end.

Definition disconnect (d : BeastXDevice) : BeastXDevice := None.

Definition send (packet : list byte) (d : BeastXDevice) : BeastXDevice * result Z :=
  match d with
  | None => (d, Raise (RuntimeError "Not connected"))
  | Some h =>
      let buf := pad_packet packet in
      let out := x00 :: buf in
      let res := hid_write h (length (hid_written h)) out in
      let h' := mkHid (hid_write h) (hid_error h) (hid_written h ++ [out]) in
      if res <? 0
      then (Some h', Raise (RuntimeError ("Write failed: " +:+ hid_error h)))
      else (Some h', Ok res)
  end.

Definition set_poll_rate (hz : Z) (d : BeastXDevice) : BeastXDevice * result unit :=
  match POLL_PACKETS !! hz with
  | None => (d, Raise (ValueError ("Invalid polling rate: " +:+ py_str_int hz)))
  | Some packet =>
      match send packet d with
      | (d', Ok _) => (d', Ok tt)
      | (d', Raise e) => (d', Raise e)
      end
  end.

Definition set_lod (lod : Z) (d : BeastXDevice) : BeastXDevice * result unit :=
  match LOD_PACKETS !! lod with
  | None => (d, Raise (ValueError ("Invalid LOD: " +:+ py_str_int lod)))
  | Some packet =>
      match send packet d with
      | (d', Ok _) => (d', Ok tt)
      | (d', Raise e) => (d', Raise e)
      end
  end.

(* ------------------------------------------------------------------ *)
(** ** Python values, lists and dicts *)

(** Hashable values that can be the key of a dict. *)
Inductive pykey :=
| KNone
| KBool (b : bool)
| KInt (z : Z)
| KStr (s : string).

#[warnings="-register-all"]
Inductive pyval :=
| VNone
| VBool (b : bool)
| VInt (z : Z)
| VStr (s : string)
| VList (l : list pyval)
| VDict (d : list (pykey * pyval)).

Definition dict := list (pykey * pyval).

(** Keys are looked up by [==] and [hash]: [True == 1] and [False == 0]. *)
Inductive key_class :=
| CNone
| CNum (z : Z)
| CStr (s : string).

#[global] Instance key_class_eq_dec : EqDecision key_class.
Proof. solve_decision. Defined.

Definition classify (k : pykey) : key_class :=
  match k with
  | KNone => CNone
  | KBool b => CNum (if b then 1 else 0)
  | KInt z => CNum z
  | KStr s => CStr s
  end.

Definition key_eqb (a b : pykey) : bool := bool_decide (classify a = classify b).

(** [d[k]], [None] for a [KeyError] *)
Fixpoint dict_get (d : dict) (k : pykey) : option pyval :=
  match d with
  | [] => None
  | (k', v) :: d' => if key_eqb k' k then Some v else dict_get d' k
  end.

(** [d[k] = v] *)
Fixpoint dict_set (d : dict) (k : pykey) (v : pyval) : dict :=
  match d with
  | [] => [(k, v)]
  | (k', v') :: d' =>
      if key_eqb k' k then (k', v) :: d' else (k', v') :: dict_set d' k v
  end.

(** [for k, v in pairs: d[k] = v] *)
Definition dict_set_all (d : dict) (pairs : list (pykey * pyval)) : dict :=
  fold_left (fun acc kv => dict_set acc kv.1 kv.2) pairs d.

(** Python's [a == b] on dicts whose values are compared structurally:
    as many keys, and the same value under every key. *)
Definition dict_equiv (a b : dict) : Prop :=
  length a = length b ∧ ∀ k, dict_get a k = dict_get b k.

(** A list index as Python resolves it: [-len <= i < 0] counts from the
    end, anything outside [-len <= i < len] is an [IndexError]. *)
Definition py_index (len : nat) (i : Z) : option nat :=
  if (0 <=? i) && (i <? Z.of_nat len) then Some (Z.to_nat i)
  else if (- Z.of_nat len <=? i) && (i <? 0) then Some (Z.to_nat (Z.of_nat len + i))
  else None.

(** [l[i]] *)
Definition list_getitem {A} (l : list A) (i : Z) : option A :=
  n ← py_index (length l) i; l !! n.

(** [l[i] = x] *)
Definition list_setitem {A} (l : list A) (i : Z) (x : A) : option (list A) :=
  n ← py_index (length l) i; Some (<[n := x]> l).

(** [l.pop(i)], the list that is left *)
Definition list_pop {A} (l : list A) (i : Z) : option (list A) :=
  n ← py_index (length l) i; Some (delete n l).

(** [float(n)] raises [OverflowError] for an int [n] that rounds to
    2^1024 or beyond: the largest float is 2^1024 - 2^971, and the tie
    2^1024 - 2^970 rounds away from it. *)
Definition float_overflows (n : Z) : bool := 2 ^ 1024 - 2 ^ 970 <=? Z.abs n.

(** [round(n / d)] for ints [n] and [d > 0]: the nearest integer, a tie
    going to the even one.  [_dpi_slide] computes [round(float(value) /
    50)] on a value that holds an integer [n].  Below 2^53 in size the
    float quotient is exactly [n / 50] when that is a half-integer and
    otherwise lies on the same side of every half-integer as [n / 50],
    so [round] returns what exact arithmetic returns; from 2^53 on,
    the float result and the exact one both lie far outside
    [50, 26000] on the same side, and [_dpi_slide] clamps them to the
    same bound. *)
Definition py_round_div (n d : Z) : Z :=
  let q := n / d in
  let r := n mod d in
  if 2 * r <? d then q
  else if d <? 2 * r then q + 1
  else if Z.even q then q else q + 1.

(* ------------------------------------------------------------------ *)
(** ** Config persistence *)

Definition DEFAULT_CONFIG : dict :=
  [ (KStr "dpi_profiles", VList [VInt 400; VInt 800; VInt 1600; VInt 3200]);
    (KStr "active_dpi", VInt 1);
    (KStr "poll_rate", VInt 1000);
    (KStr "lod", VInt 0) ].

(** What [CONFIG_PATH] holds, seen through [exists], [open] and
    [json.load]. *)
Inductive file :=
| FMissing                (* [CONFIG_PATH.exists()] is false *)
| FUnreadable             (* [open] or [json.load] raises *)
| FJson (data : pyval).   (* [json.load(f)] returns [data] *)

Definition key_of_val (v : pyval) : option pykey :=
  match v with
  | VNone => Some KNone
  | VBool b => Some (KBool b)
  | VInt z => Some (KInt z)
  | VStr s => Some (KStr s)
  | VList _ | VDict _ => None     (* unhashable *)
  end.

Definition val_of_key (k : pykey) : pyval :=
  match k with
  | KNone => VNone
  | KBool b => VBool b
  | KInt z => VInt z
  | KStr s => VStr s
  end.

(** One element of the sequence given to [dict.update]: it must
    iterate to exactly two objects, the first of them hashable. *)
Definition pair_of_item (item : pyval) : option (pykey * pyval) :=
  match item with
  | VList [k; v] => k' ← key_of_val k; Some (k', v)
  | VStr (String a (String b EmptyString)) =>
      Some (KStr (String a EmptyString), VStr (String b EmptyString))
  | VDict [(k1, _); (k2, _)] => Some (k1, val_of_key k2)
  | _ => None
  end.

(** [merged.update(data)], [None] when it raises: a dict is merged key
    by key, any other iterable must yield key-value pairs, and a value
    that is not iterable is a [TypeError]. *)
Definition dict_update (merged : dict) (data : pyval) : option dict :=
  match data with
  | VDict d => Some (dict_set_all merged d)
  | VList items => pairs ← mapM pair_of_item items; Some (dict_set_all merged pairs)
  | VStr EmptyString => Some merged
  | VStr (String _ _) => None
  | VNone | VBool _ | VInt _ => None
  end.

Definition load_config (f : file) : dict :=
  match f with
  | FMissing => DEFAULT_CONFIG
  | FUnreadable => DEFAULT_CONFIG
  | FJson data =>
      match dict_update DEFAULT_CONFIG data with
      | Some merged => merged
      | None => DEFAULT_CONFIG
      end
  end.

(** [json.dump] writes a key that is not a [str] as its JSON text. *)
Definition key_str (k : pykey) : string :=
  match k with
  | KNone => "null"
  | KBool true => "true"
  | KBool false => "false"
  | KInt z => py_str_int z
  | KStr s => s
  end.

(** The value [json.load] returns from the text [json.dump] writes for
    [v]: keys become strings, and an object is read back pair by pair. *)
Fixpoint json_reload (v : pyval) : pyval :=
  match v with
  | VList l => VList (map json_reload l)
  | VDict d =>
      VDict (fold_left
               (fun acc kv => dict_set acc (KStr (key_str kv.1)) (json_reload kv.2))
               d [])
  | _ => v
  end.

(** [save_config(cfg)]: the file is overwritten with the dump of [cfg]. *)
Definition save_config (cfg : dict) : file := FJson (json_reload (VDict cfg)).

(* ------------------------------------------------------------------ *)
(** ** The application *)

Record Toast := mkToast {
  toast_msg : string;
  toast_ok : bool
}.

(** What [_send] hands to its worker thread: the call to make on the
    device and the message to show when it returns. *)
Definition job := ((BeastXDevice → BeastXDevice * result unit) * string)%type.

Record App := mkApp {
  device : BeastXDevice;      (* [self.device] *)
  config : dict;              (* [self.config] *)
  disk : file;                (* the file at [CONFIG_PATH] *)
  toasts : list Toast;        (* calls of [self.toast], oldest first *)
  threads : list job          (* workers started and not yet run *)
}.

Definition set_device (d : BeastXDevice) (a : App) : App :=
  mkApp d (config a) (disk a) (toasts a) (threads a).

Definition set_config (c : dict) (a : App) : App :=
  mkApp (device a) c (disk a) (toasts a) (threads a).

(** [save_config(self.config)] *)
Definition save (a : App) : App :=
  mkApp (device a) (config a) (save_config (config a)) (toasts a) (threads a).

Definition toast (msg : string) (ok : bool) (a : App) : App :=
  mkApp (device a) (config a) (disk a) (toasts a ++ [mkToast msg ok]) (threads a).

Definition set_threads (ts : list job) (a : App) : App :=
  mkApp (device a) (config a) (disk a) (toasts a) ts.

(** [BeastXApp.__init__]: the configuration is loaded once, here. *)
Definition init (d : BeastXDevice) (f : file) : App :=
  mkApp d (load_config f) f [] [].

Definition as_int (v : pyval) : option Z :=
  match v with VInt z => Some z | _ => None end.

(** [self.config["dpi_profiles"]] as the list of ints every handler
    stores and [_render_dpi_rows] draws.  The handlers are modelled on
    such configurations; on any other the model gives no result. *)
Definition get_profiles (c : dict) : option (list Z) :=
  match dict_get c (KStr "dpi_profiles") with
  | Some (VList l) => mapM as_int l
  | _ => None
  end.

(** The list behind [self.config["dpi_profiles"]] is changed in place:
    the key keeps its entry and sees the new content. *)
Definition set_profiles (c : dict) (l : list Z) : dict :=
  dict_set c (KStr "dpi_profiles") (VList (VInt <$> l)).

(** [self.config["active_dpi"]] as an int *)
Definition get_active (c : dict) : option Z :=
  v ← dict_get c (KStr "active_dpi"); as_int v.

(** [_render_dpi_rows] only redraws; it reads the profiles and the
    active index. *)
Definition _render_dpi_rows (c : dict) : option unit :=
  _ ← get_profiles c; _ ← dict_get c (KStr "active_dpi"); Some tt.

(** [_dpi_slide(value, label, idx)] for a [value] that holds an
    integer.  [float(value)] comes first and can raise; the label is a
    widget. *)
Definition _dpi_slide (value idx : Z) (a : App) : option (App * result unit) :=
  if float_overflows value
  then Some (a, Raise (OverflowError "int too large to convert to float"))
  else
    let v := py_round_div value 50 * 50 in
    let v := Z.max 50 (Z.min 26000 v) in
    l ← get_profiles (config a);
    match list_setitem l idx v with
    | None => Some (a, Raise (IndexError "list assignment index out of range"))
    | Some l' => Some (save (set_config (set_profiles (config a) l') a), Ok tt)
    end.

Definition _set_active_dpi (idx : Z) (a : App) : option (App * result unit) :=
  let a1 := save (set_config (dict_set (config a) (KStr "active_dpi") (VInt idx)) a) in
  _ ← _render_dpi_rows (config a1);
  l ← get_profiles (config a1);
  match list_getitem l idx with
  | None => Some (a1, Raise (IndexError "list index out of range"))
  | Some dpi =>
      Some (toast ("Profile " +:+ py_str_int (idx + 1) +:+ " active — "
                   +:+ py_fmt_thousands dpi +:+ " DPI") true a1, Ok tt)
  end.

Definition _add_dpi (a : App) : option (App * result unit) :=
  l ← get_profiles (config a);
  if 5 <=? Z.of_nat (length l) then Some (a, Ok tt)
  else
    let a1 := save (set_config (set_profiles (config a) (l ++ [1600])) a) in
    _ ← _render_dpi_rows (config a1);
    Some (a1, Ok tt).

Definition _del_dpi (idx : Z) (a : App) : option (App * result unit) :=
  l ← get_profiles (config a);
  if Z.of_nat (length l) <=? 1
  then Some (toast "Need at least one profile" false a, Ok tt)
  else
    match list_pop l idx with
    | None => Some (a, Raise (IndexError "pop index out of range"))
    | Some l' =>
        let c1 := set_profiles (config a) l' in
        act ← get_active c1;
        let c2 :=
          if Z.of_nat (length l') <=? act
          then dict_set c1 (KStr "active_dpi") (VInt (Z.of_nat (length l') - 1))
          else c1 in
        let a1 := save (set_config c2 a) in
        _ ← _render_dpi_rows (config a1);
        Some (a1, Ok tt)
    end.

(** [_send(fn, success_msg)] starts a thread for [_run]. *)
Definition _send (fn : BeastXDevice → BeastXDevice * result unit)
    (success_msg : string) (a : App) : App :=
  set_threads (threads a ++ [(fn, success_msg)]) a.

(** The body [_run] of the worker, with the call it schedules through
    [after].  The call for a success reads [success_msg], an argument
    of [_send]; the call for a failure reads [e] and shows its toast
    only when it runs while [e] is still bound. *)
Definition _run (j : job) (e_bound : bool) (a : App) : App :=
  match j.1 (device a) with
  | (d', Ok _) => toast ("✓  " +:+ j.2) true (set_device d' a)
  | (d', Raise e) =>
      if e_bound then toast ("✗  " +:+ exn_str e) false (set_device d' a)
      else set_device d' a
  end.

Definition _set_poll (hz : Z) (note : string) (a : App) : App :=
  let a1 := save (set_config (dict_set (config a) (KStr "poll_rate") (VInt hz)) a) in
  _send (set_poll_rate hz) ("Polling rate → " +:+ py_str_int hz +:+ " Hz") a1.

Definition _set_lod (val : Z) (a : App) : App :=
  let a1 := save (set_config (dict_set (config a) (KStr "lod") (VInt val)) a) in
  _send (set_lod val) ("Lift-off → " +:+ (if val =? 0 then "1mm" else "2mm")) a1.

(** The [n]-th pending worker runs to its end. *)
Definition run_thread (n : nat) (e_bound : bool) (a : App) : option App :=
  j ← threads a !! n; Some (_run j e_bound (set_threads (delete n (threads a)) a)).

(** Everything that can happen to a running application. *)
Inductive event :=
| EvDpiSlide (value idx : Z)
| EvSetActiveDpi (idx : Z)
| EvAddDpi
| EvDelDpi (idx : Z)
| EvSetPoll (hz : Z) (note : string)
| EvSetLod (val : Z)
| EvThread (n : nat) (e_bound : bool).

Definition handle (ev : event) (a : App) : option (App * result unit) :=
  match ev with
  | EvDpiSlide value idx => _dpi_slide value idx a
  | EvSetActiveDpi idx => _set_active_dpi idx a
  | EvAddDpi => _add_dpi a
  | EvDelDpi idx => _del_dpi idx a
  | EvSetPoll hz note => Some (_set_poll hz note a, Ok tt)
  | EvSetLod val => Some (_set_lod val a, Ok tt)
  | EvThread n e_bound => a' ← run_thread n e_bound a; Some (a', Ok tt)
  end.

(** The indices the interface offers for a profile list [l]. *)
Definition valid_index (l : list Z) (idx : Z) : Prop :=
  0 <= idx < Z.of_nat (length l).

(** Section 3 of the specification on the profile list and the active
    index of a configuration. *)
Definition active_in_range (c : dict) : Prop :=
  ∃ l i, get_profiles c = Some l ∧ get_active c = Some i ∧ valid_index l i.

Definition profiles_in_bounds (c : dict) : Prop :=
  ∃ l, get_profiles c = Some l ∧ (1 <= length l <= 5)%nat.

(** The four fields of a configuration, in the order of
    [DEFAULT_CONFIG]. *)
Definition mk_config (l : list Z) (i p v : Z) : dict :=
  [ (KStr "dpi_profiles", VList (VInt <$> l));
    (KStr "active_dpi", VInt i);
    (KStr "poll_rate", VInt p);
    (KStr "lod", VInt v) ].

(** A configuration with exactly the four fields, inserted in any
    order, and values within the constraints of section 3. *)
Definition valid_config (c : dict) : Prop :=
  ∃ (l : list Z) (i p v : Z),
    c ≡ₚ mk_config l i p v ∧
    (1 <= length l <= 5)%nat ∧
    Forall (fun x => 50 <= x <= 26000 ∧ (50 | x)) l ∧
    valid_index l i ∧
    is_Some (POLL_PACKETS !! p) ∧
    is_Some (LOD_PACKETS !! v).

(** The keys of a dict up to [==]. *)
Definition key_classes (d : dict) : list key_class :=
  (fun kv => classify kv.1) <$> d.

(** How an event relates the profile list and the active index before
    it ([l], [i]) to those after it ([l'], [i']). *)
Definition step_shape (ev : event) (l : list Z) (i : Z) (l' : list Z) (i' : Z) : Prop :=
  match ev with
  | EvDpiSlide _ _ => length l' = length l ∧ i' = i
  | EvSetActiveDpi idx => l' = l ∧ i' = idx
  | EvAddDpi =>
      i' = i ∧ ((5 <= length l)%nat ∧ l' = l ∨ (length l < 5)%nat ∧ l' = l ++ [1600])
  | EvDelDpi _ =>
      l' = l ∧ i' = i ∨
      (1 < length l)%nat ∧ S (length l') = length l ∧
      i' = (if Z.of_nat (length l') <=? i then Z.of_nat (length l') - 1 else i)
  | EvSetPoll _ _ | EvSetLod _ | EvThread _ _ => l' = l ∧ i' = i
  end.

(* ------------------------------------------------------------------ *)
(** ** Sample states *)

(** A first start: no device, no file. *)
Definition fresh_app : App := init None FMissing.

(** A start from a file that holds five profiles. *)
Definition app_five : App :=
  init None (FJson (VDict [(KStr "dpi_profiles",
                            VList [VInt 400; VInt 800; VInt 1600; VInt 3200; VInt 6400])])).

(** A mouse whose every write fails. *)
Definition broken_mouse : HidDevice := mkHid (fun _ _ => -1) "boom" [].

(** A configuration with two profiles. *)
Definition sample_config : dict := mk_config [400; 800] 1 500 0.

(* ------------------------------------------------------------------ *)
(** ** Finding and opening the mouse *)

(** One entry of [hid.enumerate(VID, PID)]: the keys that [find] and
    [connect] read.  [find] reads the first two with [info.get], so
    they may be absent. *)
Record DeviceInfo := mkInfo {
  usage_page : option Z;
  interface_number : option Z;
  path : list byte
}.

Definition is_config_interface (info : DeviceInfo) : bool :=
  (default 0 (usage_page info) =? 0xFF00)
  || (default (-1) (interface_number info) =? 1).

(** The [for] loop of [find] *)
Fixpoint find_loop (devs : list DeviceInfo) : option DeviceInfo :=
  match devs with
  | [] => None
  | info :: rest => if is_config_interface info then Some info else find_loop rest
  end.

(** [find()], given what its two calls of [hid.enumerate] return. *)
Definition find (devs1 devs2 : list DeviceInfo) : option DeviceInfo :=
  match find_loop devs1 with
  | Some info => Some info
  | None => head devs2
  end.

(** What [open_path] and [set_nonblocking] do on the new [hid.device()]
    for a path: both return and leave the open handle [h], or one of
    them raises an exception with text [msg] and leaves the object as
    [h]. *)
Inductive hid_open :=
| OpenOk (h : HidDevice)
| OpenRaises (h : HidDevice) (msg : string).

(** The hid library as [connect] meets it. *)
Record HidEnv := mkEnv {
  env_devs1 : list DeviceInfo;
  env_devs2 : list DeviceInfo;
  env_open : list byte → hid_open
}.

(** How [connect] ends: it returns [True], raises its own exception,
    or lets an exception of the hid library through. *)
Inductive connect_result :=
| ConnTrue
| ConnRaise (e : exn)
| ConnHidRaise (msg : string).

Definition connect (env : HidEnv) (d : BeastXDevice) : BeastXDevice * connect_result :=
  match find (env_devs1 env) (env_devs2 env) with
  | None =>
      (d, ConnRaise (RuntimeError "Beast X not found. Make sure it's plugged in via USB."))
  | Some info =>
      match env_open env (path info) with
      | OpenOk h => (Some h, ConnTrue)
      | OpenRaises h msg => (Some h, ConnHidRaise msg)
      end
  end.

(* ------------------------------------------------------------------ *)
(** ** What the interface offers *)

(** The rate buttons of [_build_page_polling]: rate, period and note. *)
Definition RATES : list (Z * string * string) :=
  [ (125,  "8ms",    "Power saving");
    (250,  "4ms",    "Balanced");
    (500,  "2ms",    "Gaming");
    (1000, "1ms",    "Standard competitive");
    (2000, "0.5ms",  "High-performance");
    (4000, "0.25ms", "Max — Beast X limit") ].

(** The lift-off cards of [_build_page_lod]. *)
Definition LOD_OPTIONS : list Z := [0; 1].

(** The events the widgets of a state can send: [_render_dpi_rows]
    gives each existing profile its button, its delete button and a
    slider with [from_=50, to=26000, number_of_steps=519], whose values
    are the multiples of 50 from 50 to 26000; the rate buttons are
    those of [RATES], the lift-off cards those of [LOD_OPTIONS], and a
    worker that runs was started before. *)
Definition offered (a : App) (ev : event) : Prop :=
  match ev with
  | EvDpiSlide value idx =>
      (∃ l, get_profiles (config a) = Some l ∧ valid_index l idx) ∧
      50 <= value <= 26000 ∧ (50 | value)
  | EvSetActiveDpi idx | EvDelDpi idx =>
      ∃ l, get_profiles (config a) = Some l ∧ valid_index l idx
  | EvAddDpi => True
  | EvSetPoll hz note => ∃ ms, (hz, ms, note) ∈ RATES
  | EvSetLod val => val ∈ LOD_OPTIONS
  | EvThread n _ => (n < length (threads a))%nat
  end.

(** The configuration is valid and a restart would load it again. *)
Definition restartable (a : App) : Prop :=
  valid_config (config a) ∧ dict_equiv (load_config (disk a)) (config a).

(** The states a session can be in: it starts from a file that loads
    to a valid configuration (no file at all is one), and goes on by
    events the interface offers. *)
Inductive reachable : App → Prop :=
| reach_init (d : BeastXDevice) (f : file) :
    valid_config (load_config f) → reachable (init d f)
| reach_step (a a' : App) (ev : event) (r : result unit) :
    reachable a → offered a ev → handle ev a = Some (a', r) → reachable a'.

(* ------------------------------------------------------------------ *)
(** ** The window: connection status, info page, start-up *)

Definition ACCENT : string := "#c8ff57".
Definition DIM : string := "#6a6a78".

(** The two kinds of thread that call [connect]: [_do_connect], started
    by the connect button, and [_try], started by [_auto_reconnect]. *)
Inductive connect_job :=
| DoConnect
| AutoTry.

(** The application with the widgets whose content the code computes:
    the status label (text and colour), the text of the connect
    button, the tiles of the info page (key and text shown), and the
    page on the grid.  [connecting] holds the connect threads started
    and not yet run. *)
Record Window := mkWindow {
  app : App;
  status_label : string * string;
  conn_btn : string;
  info_labels : list (string * string);
  shown_page : option string;
  connecting : list connect_job
}.

Definition with_app (a : App) (w : Window) : Window :=
  mkWindow a (status_label w) (conn_btn w) (info_labels w) (shown_page w) (connecting w).

Definition _set_status (is_connected : bool) (w : Window) : Window :=
  if is_connected
  then with_app (toast "Mouse connected" true (app w))
         (mkWindow (app w) ("● Connected", ACCENT) "Disconnect"
                   (info_labels w) (shown_page w) (connecting w))
  else mkWindow (app w) ("● Disconnected", DIM) "Connect"
                (info_labels w) (shown_page w) (connecting w).

Definition start_connect (j : connect_job) (w : Window) : Window :=
  mkWindow (app w) (status_label w) (conn_btn w) (info_labels w) (shown_page w)
           (connecting w ++ [j]).

Definition _toggle_connect (w : Window) : Window :=
  if connected (device (app w))
  then _set_status false (with_app (set_device (disconnect (device (app w))) (app w)) w)
  else start_connect DoConnect w.

Definition _auto_reconnect (w : Window) : Window := start_connect AutoTry w.

(** [str(e)] for what [connect] raised *)
Definition connect_error_text (r : connect_result) : string :=
  match r with
  | ConnTrue => ""
  | ConnRaise e => exn_str e
  | ConnHidRaise msg => msg
  end.

(** The body of [_do_connect], with the call it schedules through
    [after].  On failure that call is [lambda: self.toast(str(e), ...)]
    and reads [e] when it runs; [e] is unbound once the [except] clause
    has ended, and the call then raises [NameError] inside the event
    loop and shows nothing.  [e_bound] tells whether the call runs
    while [e] is still bound. *)
Definition _do_connect (env : HidEnv) (e_bound : bool) (w : Window) : Window :=
  match connect env (device (app w)) with
  | (d', ConnTrue) => _set_status true (with_app (set_device d' (app w)) w)
  | (d', r) =>
      if e_bound
      then with_app (toast (connect_error_text r) false (set_device d' (app w))) w
      else with_app (set_device d' (app w)) w
  end.

(** The body of [_try] in [_auto_reconnect]: [except Exception: pass]. *)
Definition _try (env : HidEnv) (w : Window) : Window :=
  match connect env (device (app w)) with
  | (d', ConnTrue) => _set_status true (with_app (set_device d' (app w)) w)
  | (d', _) => with_app (set_device d' (app w)) w
  end.

(** Exceptions that building the pages can raise. *)
Inductive build_exn :=
| BuildKeyError
| BuildTypeError
| BuildIndexError.

(** What building or refreshing gives: the widgets' content, or the
    exception raised (the content reached at the raise is not kept). *)
Inductive built (A : Type) :=
| Built (x : A)
| BuildRaises (e : build_exn).
Arguments Built {A} x.
Arguments BuildRaises {A} e.

(** [_rate_btns]: the note kept under each rate. *)
Definition _rate_btns : dict := (fun r => (KInt r.1.1, VStr r.2)) <$> RATES.

(** What [_build_page_polling] computes from the configuration: the
    note [self._rate_btns[self.config["poll_rate"]][1]]. *)
Definition _build_page_polling (c : dict) : built string :=
  match dict_get c (KStr "poll_rate") with
  | None => BuildRaises BuildKeyError
  | Some rate =>
      match key_of_val rate with
      | None => BuildRaises BuildTypeError
      | Some k =>
          match dict_get _rate_btns k with
          | Some (VStr note) => Built note
          | _ => BuildRaises BuildKeyError
          end
      end
  end.

(** [_build_page_lod] reads [self.config["lod"]] for each card. *)
Definition _build_page_lod (c : dict) : built unit :=
  match dict_get c (KStr "lod") with
  | None => BuildRaises BuildKeyError
  | Some _ => Built tt
  end.

(** [x == 0] for a value of the configuration *)
Definition py_is_zero (v : pyval) : bool :=
  match v with
  | VInt z => z =? 0
  | VBool b => negb b
  | _ => false
  end.

(** The getters of the three tiles of [_build_page_info], by key.  The
    first two are modelled on ints, as the handlers are; no other key
    has a getter. *)
Definition info_getter (key : string) (c : dict) : option (built string) :=
  if String.eqb key "active_dpi" then
    l ← get_profiles c; i ← get_active c;
    match list_getitem l i with
    | None => Some (BuildRaises BuildIndexError)
    | Some dpi => Some (Built (py_fmt_thousands dpi))
    end
  else if String.eqb key "poll_rate" then
    v ← dict_get c (KStr "poll_rate"); p ← as_int v;
    Some (Built (py_str_int p +:+ " Hz"))
  else if String.eqb key "lod" then
    match dict_get c (KStr "lod") with
    | None => Some (BuildRaises BuildKeyError)
    | Some v => Some (Built (if py_is_zero v then "1mm" else "2mm"))
    end
  else None.

(** The loop over the tiles in [_build_page_info]. *)
Fixpoint build_tiles (keys : list string) (c : dict) : option (built (list (string * string))) :=
  match keys with
  | [] => Some (Built [])
  | key :: rest =>
      r ← info_getter key c;
      match r with
      | BuildRaises e => Some (BuildRaises e)
      | Built text =>
          rs ← build_tiles rest c;
          match rs with
          | BuildRaises e => Some (BuildRaises e)
          | Built tiles => Some (Built ((key, text) :: tiles))
          end
      end
  end.

Definition _build_page_info (c : dict) : option (built (list (string * string))) :=
  build_tiles ["active_dpi"; "poll_rate"; "lod"] c.

(** The loop of [_refresh_info] over the tiles. *)
Fixpoint refresh_tiles (tiles : list (string * string)) (c : dict)
    : option (built (list (string * string))) :=
  match tiles with
  | [] => Some (Built [])
  | (key, old) :: rest =>
      r ← info_getter key c;
      match r with
      | BuildRaises e => Some (BuildRaises e)
      | Built text =>
          rs ← refresh_tiles rest c;
          match rs with
          | BuildRaises e => Some (BuildRaises e)
          | Built tiles' => Some (Built ((key, text) :: tiles'))
          end
      end
  end.

(** [_refresh_info]: it returns at once unless ["info"] is a key of
    [_info_labels]. *)
Definition _refresh_info (tiles : list (string * string)) (c : dict)
    : option (built (list (string * string))) :=
  if bool_decide ("info" ∈ tiles.*1) then refresh_tiles tiles c
  else Some (Built tiles).

(** [_show_page(key)], for the four pages of [_build_ui]: the page is
    put on the grid when it exists, and the info page is refreshed. *)
Definition _show_page (key : string) (w : Window) : option (built Window) :=
  let shown :=
    if bool_decide (key ∈ ["dpi"; "polling"; "lod"; "info"]) then Some key else None in
  if String.eqb key "info" then
    r ← _refresh_info (info_labels w) (config (app w));
    match r with
    | BuildRaises e => Some (BuildRaises e)
    | Built tiles =>
        Some (Built (mkWindow (app w) (status_label w) (conn_btn w) tiles shown
                              (connecting w)))
    end
  else
    Some (Built (mkWindow (app w) (status_label w) (conn_btn w) (info_labels w) shown
                          (connecting w))).

(** [BeastXApp.__init__]: a new device object, the configuration
    loaded from the file, the pages built in the order of [_build_ui],
    the dpi page shown, and the reconnect thread started. *)
Definition startup (f : file) : option (built Window) :=
  let a := init None f in
  _ ← _render_dpi_rows (config a);
  match _build_page_polling (config a) with
  | BuildRaises e => Some (BuildRaises e)
  | Built _ =>
      match _build_page_lod (config a) with
      | BuildRaises e => Some (BuildRaises e)
      | Built _ =>
          r ← _build_page_info (config a);
          match r with
          | BuildRaises e => Some (BuildRaises e)
          | Built tiles =>
              Some (Built (_auto_reconnect
                (mkWindow a ("● Disconnected", DIM) "Connect" tiles (Some "dpi") [])))
          end
      end
  end.

(* ------------------------------------------------------------------ *)
(** ** More sample states *)

(** The mouse as [hid.enumerate] lists it: its configuration interface. *)
Definition sample_info : DeviceInfo := mkInfo (Some 0xFF00) (Some 1) [x2f; x64].

(** A mouse that is listed but cannot be opened. *)
Definition locked_env : HidEnv :=
  mkEnv [sample_info] [sample_info]
        (fun _ => OpenRaises (mkHid (fun _ _ => -1) "" []) "open failed").

(** The window right after its widgets are built, on a first start. *)
Definition fresh_window : Window :=
  mkWindow fresh_app ("● Disconnected", DIM) "Connect"
           [("active_dpi", "800"); ("poll_rate", "1000 Hz"); ("lod", "1mm")]
           (Some "dpi") [].

(* ================================================================== *)
(** * Properties *)

(* ------------------------------------------------------------------ *)
(** ** Dicts *)

Lemma key_eqb_refl k : key_eqb k k = true.
Proof. unfold key_eqb. by apply bool_decide_eq_true. Qed.

Lemma dict_get_set (d : dict) k v k' :
  dict_get (dict_set d k v) k' = if key_eqb k k' then Some v else dict_get d k'.
Proof.
  induction d as [|[k0 v0] d IH]; simpl.
  - done.
  - destruct (key_eqb k0 k) eqn:E0; simpl.
    + unfold key_eqb in *. repeat case_bool_decide; congruence.
    + rewrite IH. unfold key_eqb in *. repeat case_bool_decide; congruence.
Qed.

Lemma dict_get_set_eq (d : dict) k v : dict_get (dict_set d k v) k = Some v.
Proof. by rewrite dict_get_set, key_eqb_refl. Qed.

(* ------------------------------------------------------------------ *)
(** ** Packet catalog *)

Lemma POLL_PACKETS_dom (hz : Z) :
  is_Some (POLL_PACKETS !! hz) ↔ hz ∈ [125; 250; 500; 1000; 2000; 4000].
Proof.
  unfold POLL_PACKETS. rewrite !lookup_insert, lookup_empty.
  rewrite !elem_of_cons, elem_of_nil.
  repeat case_decide; subst; (split; [intros [x Hx] | intros Hm]);
    first [ by eexists | discriminate | intuition congruence ].
Qed.

Lemma pad_packet_length data :
  (length data ≤ REPORT_SIZE)%nat → length (pad_packet data) = REPORT_SIZE.
Proof.
  intros H. unfold pad_packet. rewrite length_app, length_drop, length_replicate. lia.
Qed.

Lemma pad_packet_prefix data : take (length data) (pad_packet data) = data.
Proof. unfold pad_packet. by rewrite take_app_length. Qed.

Lemma pad_packet_zero data i :
  (length data ≤ i < REPORT_SIZE)%nat → pad_packet data !! i = Some x00.
Proof.
  intros H. unfold pad_packet.
  rewrite lookup_app_r by lia. rewrite lookup_drop.
  apply lookup_replicate_2. lia.
Qed.

(** C2.  For each of the six polling rates the table has a report, and
    [pad_packet] turns it into 64 bytes: byte 0 is 0x04, the stored
    bytes come first unchanged, and every byte after them is zero. *)
Theorem poll_report_padded (hz : Z) (Hkey : hz ∈ [125; 250; 500; 1000; 2000; 4000]) :
  ∃ pkt, POLL_PACKETS !! hz = Some pkt ∧
    length (pad_packet pkt) = 64%nat ∧
    pad_packet pkt !! 0%nat = Some x04 ∧
    take (length pkt) (pad_packet pkt) = pkt ∧
    ∀ i, (length pkt ≤ i < 64)%nat → pad_packet pkt !! i = Some x00.
Proof.
  repeat (apply elem_of_cons in Hkey as [->|Hkey]);
    try (by apply elem_of_nil in Hkey);
    (eexists; split; [reflexivity|]);
    (split; [by apply pad_packet_length; cbn; unfold REPORT_SIZE; lia|]);
    (split; [reflexivity|]);
    (split; [apply pad_packet_prefix|]);
    intros i Hi; by apply pad_packet_zero.
Qed.

Lemma poll_report_padded_witness :
  1000 ∈ [125; 250; 500; 1000; 2000; 4000] ∧
  ∃ pkt, POLL_PACKETS !! 1000 = Some pkt ∧
    length (pad_packet pkt) = 64%nat ∧
    pad_packet pkt !! 0%nat = Some x04 ∧
    take (length pkt) (pad_packet pkt) = pkt ∧
    ∀ i, (length pkt ≤ i < 64)%nat → pad_packet pkt !! i = Some x00.
Proof.
  assert (H : 1000 ∈ [125; 250; 500; 1000; 2000; 4000]) by (do 3 right; left).
  split; [exact H | exact (poll_report_padded 1000 H)].
Defined.

(** C4.  The report stored for lift-off key 0 (1 mm) is the report
    stored for polling rate 1000, byte for byte, so [set_lod 0] and
    [set_poll_rate 1000] do the same to any device: the same bytes are
    written and the same result comes back. *)
Theorem lod_1mm_is_poll_1000 :
  LOD_PACKETS !! 0 = POLL_PACKETS !! 1000 ∧
  is_Some (LOD_PACKETS !! 0) ∧
  (∀ pl pp, LOD_PACKETS !! 0 = Some pl → POLL_PACKETS !! 1000 = Some pp →
            pad_packet pl = pad_packet pp) ∧
  ∀ d : BeastXDevice, set_lod 0 d = set_poll_rate 1000 d.
Proof.
  assert (E : LOD_PACKETS !! 0 = POLL_PACKETS !! 1000) by reflexivity.
  split; [exact E|]. split; [by eexists|]. split.
  - intros pl pp Hl Hp. rewrite E, Hp in Hl. by inversion Hl.
  - intros d. unfold set_lod, set_poll_rate. by rewrite E.
Qed.

(* ------------------------------------------------------------------ *)
(** ** Sending *)

Lemma run_keeps_config (j : job) (e_bound : bool) (a : App) :
  config (_run j e_bound a) = config a ∧ disk (_run j e_bound a) = disk a.
Proof. unfold _run. by destruct (j.1 (device a)) as [d' [u|e]], e_bound. Qed.

(** C1.  No worker ever touches the configuration or the file.  In
    particular, when [_set_poll] has stored and saved a rate and the
    write of its report then returns a negative result, the run of the
    worker leaves the configuration and the saved file as [_set_poll]
    left them, with the new rate in both.  The failure toast with the
    text of the device's error is shown only when the scheduled call
    runs while [e] is still bound; once the [except] clause has ended
    the call raises [NameError] and no toast is shown. *)
Theorem send_failure_keeps_config (a : App) (h : HidDevice) (hz : Z) (note : string)
    (pkt : list byte) (e_bound : bool)
    (Hdev : device a = Some h)
    (Hkey : POLL_PACKETS !! hz = Some pkt)
    (Hfail : hid_write h (length (hid_written h)) (x00 :: pad_packet pkt) < 0) :
  (∀ (j : job) (eb : bool) (b : App),
     config (_run j eb b) = config b ∧ disk (_run j eb b) = disk b) ∧
  ∃ a2, run_thread (length (threads a)) e_bound (_set_poll hz note a) = Some a2 ∧
    config a2 = config (_set_poll hz note a) ∧
    disk a2 = disk (_set_poll hz note a) ∧
    dict_get (config a2) (KStr "poll_rate") = Some (VInt hz) ∧
    disk a2 = save_config (config a2) ∧
    toasts a2 =
      (if e_bound
       then toasts a ++ [mkToast ("✗  Write failed: " +:+ hid_error h) false]
       else toasts a).
Proof.
  split; [apply run_keeps_config|].
  unfold run_thread, _set_poll, _send. cbn [threads set_threads save set_config].
  rewrite lookup_app_r by lia. rewrite Nat.sub_diag. cbn [lookup list_lookup mbind option_bind].
  eexists; split; [reflexivity|].
  unfold _run. cbn [fst snd device set_threads save set_config].
  unfold set_poll_rate. rewrite Hkey. unfold send. rewrite Hdev.
  apply Z.ltb_lt in Hfail. rewrite Hfail. destruct e_bound; cbn.
  all: repeat split; try reflexivity; apply dict_get_set_eq.
Qed.

Lemma send_failure_keeps_config_witness :
  ∃ a2, run_thread 0 false (_set_poll 500 "Gaming" (init (Some broken_mouse) FMissing)) = Some a2 ∧
    config a2 = config (_set_poll 500 "Gaming" (init (Some broken_mouse) FMissing)) ∧
    disk a2 = disk (_set_poll 500 "Gaming" (init (Some broken_mouse) FMissing)) ∧
    dict_get (config a2) (KStr "poll_rate") = Some (VInt 500) ∧
    disk a2 = save_config (config a2) ∧
    toasts a2 = [].
Proof.
  exact (proj2 (send_failure_keeps_config
                  (init (Some broken_mouse) FMissing) broken_mouse 500 "Gaming"
                  [x04; x74; x40; x06; x18; x00; x00; x00; x00; x04; x04; x04; x00; x00; x21; x00;
                   x95; x01; x00; x02; x00; x00; x01; x00; x40; x06; x40; x06; x10; x00; xc8; x01]
                  false eq_refl eq_refl eq_refl)).
Defined.

(** C3, as the code has it.  For a rate outside the table the device
    call [set_poll_rate] raises [ValueError] at once: nothing is
    written and the device is as before.  [_set_poll] makes no check of
    its own: it has by then stored the rate in the configuration and
    saved it, and the run of the worker, which meets the [ValueError],
    leaves the device, the configuration and the file as they are. *)
Theorem set_poll_invalid_key (a : App) (hz : Z) (note : string) (e_bound : bool)
    (Hkey : hz ∉ [125; 250; 500; 1000; 2000; 4000]) :
  (∀ d, set_poll_rate hz d =
        (d, Raise (ValueError ("Invalid polling rate: " +:+ py_str_int hz)))) ∧
  dict_get (config (_set_poll hz note a)) (KStr "poll_rate") = Some (VInt hz) ∧
  disk (_set_poll hz note a) = save_config (config (_set_poll hz note a)) ∧
  ∃ a2, run_thread (length (threads a)) e_bound (_set_poll hz note a) = Some a2 ∧
    device a2 = device a ∧
    config a2 = config (_set_poll hz note a) ∧
    disk a2 = disk (_set_poll hz note a).
Proof.
  assert (Hn : POLL_PACKETS !! hz = None).
  { destruct (POLL_PACKETS !! hz) eqn:E; [|done].
    exfalso. apply Hkey, POLL_PACKETS_dom. by eexists. }
  split; [|split; [|split]].
  - intros d. unfold set_poll_rate. by rewrite Hn.
  - apply dict_get_set_eq.
  - reflexivity.
  - unfold run_thread, _set_poll, _send. cbn [threads set_threads save set_config].
    rewrite lookup_app_r by lia. rewrite Nat.sub_diag.
    cbn [lookup list_lookup mbind option_bind].
    eexists; split; [reflexivity|].
    unfold _run. cbn [fst snd device set_threads save set_config].
    unfold set_poll_rate. rewrite Hn. by destruct e_bound.
Qed.

Lemma set_poll_invalid_key_witness :
  (7 ∉ [125; 250; 500; 1000; 2000; 4000]) ∧
  (∀ d, set_poll_rate 7 d = (d, Raise (ValueError "Invalid polling rate: 7"))) ∧
  dict_get (config (_set_poll 7 "" fresh_app)) (KStr "poll_rate") = Some (VInt 7).
Proof.
  assert (H : 7 ∉ [125; 250; 500; 1000; 2000; 4000]).
  { rewrite !elem_of_cons, elem_of_nil. lia. }
  split; [exact H|].
  destruct (set_poll_invalid_key fresh_app 7 "" false H) as (H1 & H2 & _).
  split; [exact H1 | exact H2].
Defined.

(** C3 as the specification states it fails: 7 is not a polling rate,
    and [_set_poll 7] changes both the configuration and the file. *)
Lemma invalid_rate_is_stored :
  ¬ ((7 ∉ [125; 250; 500; 1000; 2000; 4000]) →
     config (_set_poll 7 "" fresh_app) = config fresh_app ∧
     disk (_set_poll 7 "" fresh_app) = disk fresh_app).
Proof.
  intros H. destruct H as [H _].
  - rewrite !elem_of_cons, elem_of_nil. lia.
  - discriminate H.
Qed.

(* ------------------------------------------------------------------ *)
(** ** Profiles and the active index *)

Lemma mapM_as_int_VInt (l : list Z) : mapM as_int (VInt <$> l) = Some l.
Proof. induction l as [|x l IH]; [done|]. cbn. rewrite IH. done. Qed.

Lemma get_profiles_set_profiles c l : get_profiles (set_profiles c l) = Some l.
Proof.
  unfold get_profiles, set_profiles. rewrite dict_get_set_eq. apply mapM_as_int_VInt.
Qed.

Lemma get_profiles_set_other c k v :
  key_eqb k (KStr "dpi_profiles") = false →
  get_profiles (dict_set c k v) = get_profiles c.
Proof. intros H. unfold get_profiles. by rewrite dict_get_set, H. Qed.

Lemma get_active_set_other c k v :
  key_eqb k (KStr "active_dpi") = false →
  get_active (dict_set c k v) = get_active c.
Proof. intros H. unfold get_active. by rewrite dict_get_set, H. Qed.

Lemma get_active_set_active c i :
  get_active (dict_set c (KStr "active_dpi") (VInt i)) = Some i.
Proof. unfold get_active. by rewrite dict_get_set_eq. Qed.

Lemma get_active_set_profiles c l : get_active (set_profiles c l) = get_active c.
Proof. by apply get_active_set_other. Qed.

Lemma get_active_is_Some c i :
  get_active c = Some i → is_Some (dict_get c (KStr "active_dpi")).
Proof. unfold get_active. destruct (dict_get c (KStr "active_dpi")); [by eexists|done]. Qed.

Lemma py_index_lt len i n : py_index len i = Some n → (n < len)%nat.
Proof.
  unfold py_index. intros H.
  destruct ((0 <=? i) && (i <? Z.of_nat len)) eqn:E1.
  - apply andb_true_iff in E1 as [?%Z.leb_le ?%Z.ltb_lt]. inversion H. lia.
  - destruct ((- Z.of_nat len <=? i) && (i <? 0)) eqn:E2; [|done].
    apply andb_true_iff in E2 as [?%Z.leb_le ?%Z.ltb_lt]. inversion H. lia.
Qed.

Lemma py_index_valid len i :
  0 <= i < Z.of_nat len → py_index len i = Some (Z.to_nat i).
Proof.
  intros H. unfold py_index.
  assert ((0 <=? i) && (i <? Z.of_nat len) = true) as ->; [|done].
  apply andb_true_iff. split; [apply Z.leb_le | apply Z.ltb_lt]; lia.
Qed.

Lemma py_index_None len i :
  py_index len i = None ↔ ¬ (- Z.of_nat len <= i < Z.of_nat len).
Proof.
  unfold py_index.
  destruct (0 <=? i) eqn:E1, (i <? Z.of_nat len) eqn:E2,
           (- Z.of_nat len <=? i) eqn:E3, (i <? 0) eqn:E4; cbn;
    rewrite ?Z.leb_le, ?Z.leb_gt, ?Z.ltb_lt, ?Z.ltb_ge in *;
    split; intros H; try done; try lia.
Qed.

Lemma list_getitem_Some {A} (l : list A) i :
  is_Some (list_getitem l i) ↔ - Z.of_nat (length l) <= i < Z.of_nat (length l).
Proof.
  unfold list_getitem.
  destruct (py_index (length l) i) as [n|] eqn:E; cbn.
  - split; [intros _ | intros _; apply lookup_lt_is_Some; by eapply py_index_lt].
    destruct (decide (- Z.of_nat (length l) <= i < Z.of_nat (length l))) as [|Hn]; [done|].
    apply py_index_None in Hn. congruence.
  - apply py_index_None in E. split; [by intros [? ?]|done].
Qed.

Lemma render_ok c l i :
  get_profiles c = Some l → get_active c = Some i → _render_dpi_rows c = Some tt.
Proof.
  intros Hp Ha. unfold _render_dpi_rows. rewrite Hp. cbn.
  destruct (get_active_is_Some _ _ Ha) as [v ->]. done.
Qed.

(** The handlers on a configuration whose profiles are a list of ints
    and whose active index is an int. *)

Lemma set_active_dpi_eq (a : App) (l : list Z) (idx : Z) :
  get_profiles (config a) = Some l →
  _set_active_dpi idx a =
    let a1 := save (set_config (dict_set (config a) (KStr "active_dpi") (VInt idx)) a) in
    Some match list_getitem l idx with
         | None => (a1, Raise (IndexError "list index out of range"))
         | Some dpi =>
             (toast ("Profile " +:+ py_str_int (idx + 1) +:+ " active — "
                     +:+ py_fmt_thousands dpi +:+ " DPI") true a1, Ok tt)
         end.
Proof.
  intros Hp. unfold _set_active_dpi. cbn [config save set_config].
  assert (Hp' : get_profiles (dict_set (config a) (KStr "active_dpi") (VInt idx)) = Some l)
    by (by rewrite get_profiles_set_other).
  rewrite (render_ok _ l idx Hp' (get_active_set_active _ _)), Hp'. cbn.
  by destruct (list_getitem l idx).
Qed.

Lemma dpi_slide_eq (a : App) (l : list Z) (value idx : Z) :
  get_profiles (config a) = Some l →
  _dpi_slide value idx a =
    Some (if float_overflows value
          then (a, Raise (OverflowError "int too large to convert to float"))
          else match py_index (length l) idx with
               | None => (a, Raise (IndexError "list assignment index out of range"))
               | Some n =>
                   (save (set_config (set_profiles (config a)
                      (<[n := Z.max 50 (Z.min 26000 (py_round_div value 50 * 50))]> l)) a),
                    Ok tt)
               end).
Proof.
  intros Hp. unfold _dpi_slide, list_setitem.
  destruct (float_overflows value); [done|]. rewrite Hp. cbn.
  by destruct (py_index (length l) idx).
Qed.

Lemma float_overflows_small (n : Z) : Z.abs n < 2 ^ 64 → float_overflows n = false.
Proof.
  intros H. unfold float_overflows. apply Z.leb_gt.
  eapply Z.lt_le_trans; [exact H|]. by vm_compute.
Qed.

Lemma add_dpi_eq (a : App) (l : list Z) (i : Z) :
  get_profiles (config a) = Some l → get_active (config a) = Some i →
  _add_dpi a =
    Some (if 5 <=? Z.of_nat (length l) then (a, Ok tt)
          else (save (set_config (set_profiles (config a) (l ++ [1600])) a), Ok tt)).
Proof.
  intros Hp Ha. unfold _add_dpi. rewrite Hp. cbn.
  destruct (5 <=? Z.of_nat (length l)); [done|].
  rewrite (render_ok _ (l ++ [1600]) i); [done|..].
  - apply get_profiles_set_profiles.
  - by rewrite get_active_set_profiles.
Qed.

Lemma del_dpi_eq (a : App) (l : list Z) (i idx : Z) :
  get_profiles (config a) = Some l → get_active (config a) = Some i →
  _del_dpi idx a =
    Some (if Z.of_nat (length l) <=? 1
          then (toast "Need at least one profile" false a, Ok tt)
          else match py_index (length l) idx with
               | None => (a, Raise (IndexError "pop index out of range"))
               | Some n =>
                   let l' := delete n l in
                   let c1 := set_profiles (config a) l' in
                   let c2 := if Z.of_nat (length l') <=? i
                             then dict_set c1 (KStr "active_dpi")
                                    (VInt (Z.of_nat (length l') - 1))
                             else c1 in
                   (save (set_config c2 a), Ok tt)
               end).
Proof.
  intros Hp Ha. unfold _del_dpi, list_pop. rewrite Hp. cbn.
  destruct (Z.of_nat (length l) <=? 1); [done|].
  destruct (py_index (length l) idx) as [n|]; [|done]. cbn.
  rewrite get_active_set_profiles, Ha. cbn.
  destruct (Z.of_nat (length (delete n l)) <=? i).
  - erewrite render_ok; [done|..].
    + rewrite get_profiles_set_other by done. apply get_profiles_set_profiles.
    + apply get_active_set_active.
  - erewrite render_ok; [done|..].
    + apply get_profiles_set_profiles.
    + by rewrite get_active_set_profiles.
Qed.

Lemma slide_value_props (raw : Z) :
  let v := Z.max 50 (Z.min 26000 (py_round_div raw 50 * 50)) in
  let c := Z.max 50 (Z.min 26000 raw) in
  50 <= v <= 26000 ∧ (50 | v) ∧
  ∀ m, (50 | m) → Z.abs (v - c) <= Z.abs (m - c).
Proof.
  intros v c. subst v c. unfold py_round_div.
  pose proof (Z.div_mod raw 50 ltac:(lia)) as Hdm.
  pose proof (Z.mod_pos_bound raw 50 ltac:(lia)) as Hr.
  set (q := raw / 50) in *. set (r := raw mod 50) in *.
  assert (Hcases :
    ∃ t, (t = q ∨ t = q + 1) ∧ Z.abs (t * 50 - raw) <= 25 ∧
         (if 2 * r <? 50 then q
          else if 50 <? 2 * r then q + 1
          else if Z.even q then q else q + 1) = t).
  { destruct (2 * r <? 50) eqn:E1; [apply Z.ltb_lt in E1; exists q; lia|].
    apply Z.ltb_ge in E1.
    destruct (50 <? 2 * r) eqn:E2; [apply Z.ltb_lt in E2; exists (q + 1); lia|].
    apply Z.ltb_ge in E2.
    destruct (Z.even q); [exists q | exists (q + 1)]; lia. }
  destruct Hcases as (t & Ht & Hd & ->).
  split; [lia|]. split.
  - assert (H : Z.max 50 (Z.min 26000 (t * 50)) = 50 * 1
              ∨ Z.max 50 (Z.min 26000 (t * 50)) = 50 * 520
              ∨ Z.max 50 (Z.min 26000 (t * 50)) = 50 * t) by lia.
    destruct H as [-> | [-> | ->]]; apply Z.divide_factor_l.
  - intros m [k ->]. lia.
Qed.

(* ------------------------------------------------------------------ *)
(** ** Events and invariants *)

Lemma handle_shape ev a a' r l i :
  get_profiles (config a) = Some l → get_active (config a) = Some i →
  handle ev a = Some (a', r) →
  ∃ l' i', get_profiles (config a') = Some l' ∧ get_active (config a') = Some i' ∧
           step_shape ev l i l' i'.
Proof.
  intros Hp Ha H. destruct ev; cbn [handle step_shape] in *.
  - rewrite (dpi_slide_eq _ l) in H by done.
    destruct (float_overflows value).
    { inversion H; subst; clear H. by exists l, i. }
    destruct (py_index (length l) idx) as [n|] eqn:E; inversion H; subst; clear H.
    + eexists _, i. cbn [config save set_config].
      rewrite get_profiles_set_profiles, get_active_set_profiles.
      by rewrite length_insert.
    + by exists l, i.
  - rewrite (set_active_dpi_eq _ l) in H by done. cbn zeta in H.
    exists l, idx.
    destruct (list_getitem l idx); inversion H; subst; clear H;
      cbn [config save set_config toast];
      by rewrite get_profiles_set_other, get_active_set_active.
  - rewrite (add_dpi_eq _ l i) in H by done.
    destruct (5 <=? Z.of_nat (length l)) eqn:E; inversion H; subst; clear H.
    + apply Z.leb_le in E. exists l, i. repeat split; try done. left. split; [lia|done].
    + apply Z.leb_gt in E. exists (l ++ [1600]), i. cbn [config save set_config].
      rewrite get_profiles_set_profiles, get_active_set_profiles.
      repeat split; try done. right. split; [lia|done].
  - rewrite (del_dpi_eq _ l i) in H by done.
    destruct (Z.of_nat (length l) <=? 1) eqn:E.
    { inversion H; subst. exists l, i. cbn. repeat split; try done. by left. }
    apply Z.leb_gt in E.
    destruct (py_index (length l) idx) as [n|] eqn:En; inversion H; subst; clear H.
    2:{ exists l, i. repeat split; try done. by left. }
    apply py_index_lt in En.
    assert (Hlen : S (length (delete n l)) = length l).
    { rewrite length_delete by (by apply lookup_lt_is_Some). lia. }
    cbn [config save set_config].
    destruct (Z.of_nat (length (delete n l)) <=? i) eqn:Ei.
    + eexists _, _. rewrite get_profiles_set_other by done.
      rewrite get_profiles_set_profiles, get_active_set_active.
      repeat split. right. rewrite Ei. repeat split; [lia|done].
    + eexists _, _. rewrite get_profiles_set_profiles, get_active_set_profiles.
      repeat split; [done|]. right. rewrite Ei. repeat split; [lia|done].
  - inversion H; subst; clear H. exists l, i.
    unfold _set_poll, _send. cbn [config save set_config set_threads].
    by rewrite get_profiles_set_other, get_active_set_other.
  - inversion H; subst; clear H. exists l, i.
    unfold _set_lod, _send. cbn [config save set_config set_threads].
    by rewrite get_profiles_set_other, get_active_set_other.
  - unfold run_thread in H. destruct (threads a !! n) as [j|]; [|done].
    cbn in H. inversion H; subst; clear H. exists l, i.
    destruct (run_keeps_config j e_bound (set_threads (delete n (threads a)) a)) as [-> _].
    done.
Qed.

Lemma handle_total ev a l i :
  get_profiles (config a) = Some l → get_active (config a) = Some i →
  (∀ n eb, ev = EvThread n eb → (n < length (threads a))%nat) →
  is_Some (handle ev a).
Proof.
  intros Hp Ha Hn. destruct ev; cbn [handle].
  - by rewrite (dpi_slide_eq _ l).
  - by rewrite (set_active_dpi_eq _ l).
  - by rewrite (add_dpi_eq _ l i).
  - by rewrite (del_dpi_eq _ l i).
  - done.
  - done.
  - unfold run_thread.
    destruct (lookup_lt_is_Some_2 (threads a) n (Hn n e_bound eq_refl)) as [j ->].
    done.
Qed.

Lemma handle_active_in_range ev a a' r :
  active_in_range (config a) → handle ev a = Some (a', r) →
  (∀ idx l, ev = EvSetActiveDpi idx → get_profiles (config a) = Some l → valid_index l idx) →
  active_in_range (config a').
Proof.
  intros (l & i & Hp & Ha & Hv) H Hidx.
  destruct (handle_shape _ _ _ _ _ _ Hp Ha H) as (l' & i' & Hp' & Ha' & Hs).
  exists l', i'. split; [done|]. split; [done|].
  pose proof (Hidx' := fun idx => Hidx idx l).
  unfold valid_index in *. destruct ev; cbn [step_shape] in Hs.
  - destruct Hs as [Hl ->]. lia.
  - destruct Hs as [-> ->]. by apply Hidx'.
  - destruct Hs as [-> [[_ ->]|[_ ->]]]; [lia|]. rewrite length_app. cbn. lia.
  - destruct Hs as [[-> ->]|(H1 & H2 & ->)]; [lia|].
    destruct (Z.of_nat (length l') <=? i) eqn:E;
      [apply Z.leb_le in E | apply Z.leb_gt in E]; lia.
  - destruct Hs as [-> ->]. lia.
  - destruct Hs as [-> ->]. lia.
  - destruct Hs as [-> ->]. lia.
Qed.

Lemma handle_profiles_in_bounds ev a a' r l i :
  get_profiles (config a) = Some l → get_active (config a) = Some i →
  (1 <= length l <= 5)%nat → handle ev a = Some (a', r) →
  profiles_in_bounds (config a').
Proof.
  intros Hp Ha Hb H.
  destruct (handle_shape _ _ _ _ _ _ Hp Ha H) as (l' & i' & Hp' & Ha' & Hs).
  exists l'. split; [done|].
  destruct ev; cbn [step_shape] in Hs.
  - destruct Hs as [Hl ->]. lia.
  - destruct Hs as [-> ->]. lia.
  - destruct Hs as [-> [[_ ->]|[? ->]]]; [lia|]. rewrite length_app. cbn. lia.
  - destruct Hs as [[-> ->]|(H1 & H2 & ->)]; lia.
  - destruct Hs as [-> ->]. lia.
  - destruct Hs as [-> ->]. lia.
  - destruct Hs as [-> ->]. lia.
Qed.

(** C5, as the code has it.  [_set_active_dpi] makes no range check
    before it stores: for every [idx] the active index becomes [idx]
    and is saved.  The lookup for the toast then succeeds when
    [-len <= idx < len] and raises [IndexError] otherwise, with [idx]
    already stored.  For [0 <= idx < len] the call succeeds and the
    active index is in range afterwards.  Every event keeps the active
    index in range as long as [_set_active_dpi] is given such an
    index, which is what the profile buttons do; and every event has a
    result. *)
Theorem set_active_dpi_stores (a : App) (l : list Z) (idx : Z)
    (Hp : get_profiles (config a) = Some l) :
  ∃ a' r, _set_active_dpi idx a = Some (a', r) ∧
    get_active (config a') = Some idx ∧
    get_profiles (config a') = Some l ∧
    disk a' = save_config (config a') ∧
    (r = Ok tt ↔ - Z.of_nat (length l) <= idx < Z.of_nat (length l)) ∧
    (valid_index l idx → r = Ok tt ∧ active_in_range (config a')) ∧
    (∀ ev b b' rb,
       active_in_range (config b) → handle ev b = Some (b', rb) →
       (∀ i lb, ev = EvSetActiveDpi i → get_profiles (config b) = Some lb →
                valid_index lb i) →
       active_in_range (config b')) ∧
    (∀ ev b,
       active_in_range (config b) →
       (∀ n eb, ev = EvThread n eb → (n < length (threads b))%nat) →
       is_Some (handle ev b)).
Proof.
  rewrite (set_active_dpi_eq a l idx Hp). cbn zeta.
  set (a1 := save (set_config (dict_set (config a) (KStr "active_dpi") (VInt idx)) a)).
  assert (Ha1 : get_active (config a1) = Some idx) by apply get_active_set_active.
  assert (Hp1 : get_profiles (config a1) = Some l)
    by (subst a1; cbn [config save set_config]; by rewrite get_profiles_set_other).
  pose proof (list_getitem_Some l idx) as Hget.
  assert (Hinv : ∀ ev b b' rb,
       active_in_range (config b) → handle ev b = Some (b', rb) →
       (∀ i lb, ev = EvSetActiveDpi i → get_profiles (config b) = Some lb →
                valid_index lb i) →
       active_in_range (config b')).
  { intros ev b b' rb. apply handle_active_in_range. }
  assert (Htot : ∀ ev b,
       active_in_range (config b) →
       (∀ n eb, ev = EvThread n eb → (n < length (threads b))%nat) →
       is_Some (handle ev b)).
  { intros ev b (lb & ib & Hpb & Hab & _). by apply (handle_total ev b lb ib). }
  destruct (list_getitem l idx) as [dpi|] eqn:E.
  - eexists _, _. split; [reflexivity|]. cbn [config toast disk].
    split_and!;
      first [ done
            | by (split; [intros _; apply Hget; eexists | done])
            | by (intros Hv; split; [|exists l, idx]) ].
  - eexists _, _. split; [reflexivity|].
    assert (Hout : ¬ (- Z.of_nat (length l) <= idx < Z.of_nat (length l))).
    { intros H. apply Hget in H as [? ?]. done. }
    split_and!;
      first [ done
            | by (split; [|intros H; destruct Hout])
            | (intros Hv; destruct Hout; unfold valid_index in Hv; lia) ].
Qed.

Lemma set_active_dpi_stores_witness :
  get_profiles (config fresh_app) = Some [400; 800; 1600; 3200] ∧
  ∃ a' r, _set_active_dpi 2 fresh_app = Some (a', r) ∧
    get_active (config a') = Some 2.
Proof.
  split; [reflexivity|].
  destruct (set_active_dpi_stores fresh_app [400; 800; 1600; 3200] 2 eq_refl)
    as (a' & r & H1 & H2 & _).
  by exists a', r.
Defined.

(** C5 as the specification states it fails: on the default
    configuration, which has four profiles, [_set_active_dpi 7] stores
    and saves 7 before it raises, and the active index is out of range
    afterwards. *)
Lemma set_active_out_of_range_breaks_invariant :
  active_in_range (config fresh_app) ∧
  ¬ valid_index [400; 800; 1600; 3200] 7 ∧
  ∃ a', _set_active_dpi 7 fresh_app = Some (a', Raise (IndexError "list index out of range")) ∧
        get_active (config a') = Some 7 ∧
        disk a' = save_config (config a') ∧
        ¬ active_in_range (config a').
Proof.
  split; [|split].
  - exists [400; 800; 1600; 3200], 1. unfold valid_index. cbn. repeat split; lia.
  - unfold valid_index. cbn. lia.
  - eexists. split; [reflexivity|]. split; [reflexivity|]. split; [reflexivity|].
    intros (l & i & Hp & Ha & Hv).
    assert (l = [400; 800; 1600; 3200]) as -> by (by inversion Hp).
    assert (i = 7) as -> by (by inversion Ha).
    unfold valid_index in Hv. cbn in Hv. lia.
Qed.

(** C6, as the code has it.  [_dpi_slide] first converts the raw input
    with [float], which raises [OverflowError] for an int of size
    2^1024 - 2^970 or more: nothing is stored then.  For every other raw
    input and an index of the list, [_dpi_slide] stores at that index
    the value [v] computed from the raw input and saves the
    configuration.  [v] lies in [50, 26000], is a multiple of 50, and no
    multiple of 50 is nearer than [v] to the raw input clamped into
    [50, 26000].  Raw 137 gives 150, raw 40 gives 50 and raw 30000
    gives 26000, and none of the three overflows. *)
Theorem dpi_slide_stores_rounded (a : App) (l : list Z) (raw idx : Z)
    (Hp : get_profiles (config a) = Some l) (Hidx : valid_index l idx) :
  let v := Z.max 50 (Z.min 26000 (py_round_div raw 50 * 50)) in
  let c := Z.max 50 (Z.min 26000 raw) in
  (Z.abs raw < 2 ^ 1024 - 2 ^ 970 →
   ∃ a', _dpi_slide raw idx a = Some (a', Ok tt) ∧
         get_profiles (config a') = Some (<[Z.to_nat idx := v]> l) ∧
         (<[Z.to_nat idx := v]> l) !! Z.to_nat idx = Some v ∧
         disk a' = save_config (config a')) ∧
  (2 ^ 1024 - 2 ^ 970 <= Z.abs raw →
   _dpi_slide raw idx a =
     Some (a, Raise (OverflowError "int too large to convert to float"))) ∧
  50 <= v <= 26000 ∧ (50 | v) ∧
  (∀ m, (50 | m) → Z.abs (v - c) <= Z.abs (m - c)) ∧
  Z.max 50 (Z.min 26000 (py_round_div 137 50 * 50)) = 150 ∧
  Z.max 50 (Z.min 26000 (py_round_div 40 50 * 50)) = 50 ∧
  Z.max 50 (Z.min 26000 (py_round_div 30000 50 * 50)) = 26000 ∧
  float_overflows 137 = false ∧ float_overflows 40 = false ∧
  float_overflows 30000 = false.
Proof.
  intros v c. split; [|split; [|split; [|split; [|split]]]].
  - intros Hfl. rewrite (dpi_slide_eq a l raw idx Hp), (py_index_valid _ _ Hidx).
    assert (float_overflows raw = false) as -> by (by apply Z.leb_gt).
    eexists. split; [reflexivity|]. cbn [config save set_config disk].
    split; [apply get_profiles_set_profiles|]. split; [|done].
    apply list_lookup_insert_eq. unfold valid_index in Hidx. lia.
  - intros Hfl. rewrite (dpi_slide_eq a l raw idx Hp).
    by assert (float_overflows raw = true) as -> by (by apply Z.leb_le).
  - apply (slide_value_props raw).
  - apply (slide_value_props raw).
  - apply (slide_value_props raw).
  - by vm_compute.
Qed.

Lemma dpi_slide_stores_rounded_witness :
  get_profiles (config fresh_app) = Some [400; 800; 1600; 3200] ∧
  valid_index [400; 800; 1600; 3200] 0 ∧
  ∃ a', _dpi_slide 137 0 fresh_app = Some (a', Ok tt) ∧
        get_profiles (config a') = Some [150; 800; 1600; 3200].
Proof.
  assert (Hv : valid_index [400; 800; 1600; 3200] 0) by (unfold valid_index; cbn; lia).
  split; [reflexivity|]. split; [exact Hv|].
  destruct (dpi_slide_stores_rounded fresh_app [400; 800; 1600; 3200] 137 0 eq_refl Hv)
    as [H _].
  destruct (H eq_refl) as (a' & H1 & H2 & _).
  exists a'. split; [exact H1 | exact H2].
Defined.

(** C6 as the specification states it fails: 0 is an index of the
    default profiles, and for the raw input 2^1024 [_dpi_slide] raises
    [OverflowError] and leaves the application as it was; it does not
    store 26000. *)
Lemma dpi_slide_huge_raw_raises :
  get_profiles (config fresh_app) = Some [400; 800; 1600; 3200] ∧
  valid_index [400; 800; 1600; 3200] 0 ∧
  _dpi_slide (2 ^ 1024) 0 fresh_app =
    Some (fresh_app, Raise (OverflowError "int too large to convert to float")) ∧
  ¬ ∃ a', _dpi_slide (2 ^ 1024) 0 fresh_app = Some (a', Ok tt) ∧
          get_profiles (config a') = Some [26000; 800; 1600; 3200].
Proof.
  assert (H : _dpi_slide (2 ^ 1024) 0 fresh_app =
    Some (fresh_app, Raise (OverflowError "int too large to convert to float"))).
  { unfold _dpi_slide.
    by assert (float_overflows (2 ^ 1024) = true) as -> by (by vm_compute). }
  split; [reflexivity|]. split; [unfold valid_index; cbn; lia|]. split; [exact H|].
  intros (a' & H' & _). rewrite H in H'. discriminate.
Qed.

(** C7, as the code has it.  With five profiles (or more) [_add_dpi]
    returns at once, without an error and without a toast, and changes
    nothing: nothing is appended and nothing is saved.  With one
    profile [_del_dpi] removes nothing: it shows the failure toast
    "Need at least one profile" and leaves configuration and file as
    they were.  From a list of one to five profiles every event has a
    result, and the list has one to five profiles after it. *)
Theorem profile_count_limits (a : App) (l : list Z) (i : Z)
    (Hp : get_profiles (config a) = Some l)
    (Ha : get_active (config a) = Some i) :
  ((5 <= length l)%nat → _add_dpi a = Some (a, Ok tt)) ∧
  ((length l <= 1)%nat → ∀ idx,
     ∃ a', _del_dpi idx a = Some (a', Ok tt) ∧
           a' = toast "Need at least one profile" false a ∧
           config a' = config a ∧ disk a' = disk a ∧
           get_profiles (config a') = Some l) ∧
  ((1 <= length l <= 5)%nat → ∀ ev,
     (∀ n eb, ev = EvThread n eb → (n < length (threads a))%nat) →
     ∃ a' r, handle ev a = Some (a', r) ∧ profiles_in_bounds (config a')).
Proof.
  split; [|split].
  - intros H. rewrite (add_dpi_eq a l i Hp Ha).
    assert ((5 <=? Z.of_nat (length l)) = true) as -> by (apply Z.leb_le; lia). done.
  - intros H idx. rewrite (del_dpi_eq a l i idx Hp Ha).
    assert ((Z.of_nat (length l) <=? 1) = true) as -> by (apply Z.leb_le; lia).
    eexists. split; [reflexivity|]. done.
  - intros H ev Hn.
    destruct (handle_total ev a l i Hp Ha Hn) as [[a' r] Hh].
    exists a', r. split; [done|]. by eapply handle_profiles_in_bounds.
Qed.

Lemma profile_count_limits_witness :
  get_profiles (config app_five) = Some [400; 800; 1600; 3200; 6400] ∧
  get_active (config app_five) = Some 1 ∧
  _add_dpi app_five = Some (app_five, Ok tt).
Proof.
  split; [reflexivity|]. split; [reflexivity|].
  apply (proj1 (profile_count_limits app_five [400; 800; 1600; 3200; 6400] 1 eq_refl eq_refl)).
  cbn. lia.
Defined.

(** C7 as the specification states it fails: with the five profiles of
    [app_five], [_add_dpi] does not fail.  It returns normally, raises
    no exception and shows no toast, and the application is as before. *)
Lemma add_dpi_at_capacity_is_silent :
  get_profiles (config app_five) = Some [400; 800; 1600; 3200; 6400] ∧
  _add_dpi app_five = Some (app_five, Ok tt) ∧
  toasts app_five = [] ∧
  ¬ ∃ a' e, _add_dpi app_five = Some (a', Raise e).
Proof.
  split; [reflexivity|]. split; [reflexivity|]. split; [reflexivity|].
  intros (a' & e & H). discriminate.
Qed.

(* ------------------------------------------------------------------ *)
(** ** Loading and saving *)

Lemma dict_get_app (d1 d2 : dict) k :
  dict_get (d1 ++ d2) k =
    match dict_get d1 k with Some v => Some v | None => dict_get d2 k end.
Proof.
  induction d1 as [|[k0 v0] d1 IH]; [done|]. cbn.
  destruct (key_eqb k0 k); [done|apply IH].
Qed.

Lemma dict_get_set_all (m d : dict) k :
  dict_get (dict_set_all m d) k =
    match dict_get (rev d) k with Some v => Some v | None => dict_get m k end.
Proof.
  revert m. induction d as [|[k0 v0] d IH]; intros m; [done|].
  cbn [dict_set_all fold_left rev fst snd].
  change (fold_left _ d ?x) with (dict_set_all x d).
  rewrite IH, dict_get_app, dict_get_set. cbn.
  destruct (dict_get (rev d) k); [done|]. by destruct (key_eqb k0 k).
Qed.

Lemma dict_get_elem_of (d : dict) k v : (k, v) ∈ d → is_Some (dict_get d k).
Proof.
  induction d as [|[k0 v0] d IH]; [by intros ?%elem_of_nil|].
  intros [[= <- <-]|H]%elem_of_cons; cbn.
  - rewrite key_eqb_refl. by eexists.
  - destruct (key_eqb k0 k); [by eexists|by apply IH].
Qed.

Lemma dict_get_None (d : dict) k :
  dict_get d k = None ↔ classify k ∉ key_classes d.
Proof.
  unfold key_classes. induction d as [|[k0 v0] d IH]; cbn.
  - split; [intros _ ?%elem_of_nil; done|done].
  - rewrite not_elem_of_cons. unfold key_eqb. case_bool_decide as E.
    + split; [done|]. intros [H _]. by destruct H.
    + rewrite IH. split; [intros H; split; [congruence|done]|by intros [_ H]].
Qed.

Lemma dict_get_Some_NoDup (d : dict) k v :
  NoDup (key_classes d) →
  dict_get d k = Some v ↔ ∃ k', (k', v) ∈ d ∧ classify k' = classify k.
Proof.
  unfold key_classes. induction d as [|[k0 v0] d IH]; cbn; intros Hnd.
  - split; [done|]. by intros (k' & ?%elem_of_nil & _).
  - apply NoDup_cons in Hnd as [Hk0 Hnd]. unfold key_eqb. case_bool_decide as E.
    + split.
      * intros [= ->]. exists k0. split; [left|done].
      * intros (k' & [[= -> ->]|Hin]%elem_of_cons & Hc); [done|].
        exfalso. apply Hk0. rewrite E, <- Hc.
        apply list_elem_of_fmap. by exists (k', v).
    + rewrite (IH Hnd). split.
      * intros (k' & Hin & Hc). exists k'. split; [by right|done].
      * intros (k' & [[= -> ->]|Hin]%elem_of_cons & Hc); [done|]. by exists k'.
Qed.

Lemma key_classes_perm (d d' : dict) : d ≡ₚ d' → key_classes d ≡ₚ key_classes d'.
Proof. intros H. unfold key_classes. by rewrite H. Qed.

Lemma dict_get_perm (d d' : dict) k :
  NoDup (key_classes d) → d ≡ₚ d' → dict_get d k = dict_get d' k.
Proof.
  intros Hnd Hp.
  assert (Hnd' : NoDup (key_classes d')) by (by rewrite <- (key_classes_perm _ _ Hp)).
  apply option_eq. intros v.
  rewrite !dict_get_Some_NoDup by done.
  by setoid_rewrite Hp.
Qed.

Lemma dict_set_fresh (d : dict) k v :
  dict_get d k = None → dict_set d k v = d ++ [(k, v)].
Proof.
  induction d as [|[k0 v0] d IH]; cbn; [done|].
  destruct (key_eqb k0 k); [done|]. intros H. by rewrite IH.
Qed.

Lemma dict_set_all_fresh (acc d : dict) :
  NoDup (key_classes (acc ++ d)) → dict_set_all acc d = acc ++ d.
Proof.
  revert acc. induction d as [|[k v] d IH]; intros acc Hnd.
  - by rewrite app_nil_r.
  - cbn [dict_set_all fold_left fst snd].
    change (fold_left _ d ?x) with (dict_set_all x d).
    assert (Hk : dict_get acc k = None).
    { apply dict_get_None. unfold key_classes in *.
      rewrite fmap_app in Hnd. apply NoDup_app in Hnd as (_ & Hd & _).
      intros Hin. apply (Hd _ Hin). cbn. left. }
    rewrite (dict_set_fresh _ _ _ Hk), IH; [by rewrite <- app_assoc|].
    by rewrite <- app_assoc.
Qed.

Lemma length_dict_set (d : dict) k v :
  is_Some (dict_get d k) → length (dict_set d k v) = length d.
Proof.
  induction d as [|[k0 v0] d IH]; cbn; [by intros [? ?]|].
  destruct (key_eqb k0 k); [done|]. intros H. cbn. by rewrite IH.
Qed.

Lemma length_dict_set_all (m d : dict) :
  (∀ kv, kv ∈ d → is_Some (dict_get m kv.1)) →
  length (dict_set_all m d) = length m.
Proof.
  revert m. induction d as [|[k v] d IH]; intros m H; [done|].
  cbn [dict_set_all fold_left fst snd].
  change (fold_left _ d ?x) with (dict_set_all x d).
  rewrite IH.
  - apply length_dict_set. apply (H (k, v)). left.
  - intros kv Hkv. rewrite dict_get_set. destruct (key_eqb k kv.1); [by eexists|].
    apply H. by right.
Qed.

(** C8.  With no file, or with a file that cannot be opened or parsed,
    [load_config] returns [DEFAULT_CONFIG]: profiles 400, 800, 1600 and
    3200, active index 1, polling rate 1000, lift-off 0; this is the
    configuration the application then starts with.  From a file that
    holds only [{"poll_rate": 500}] it returns the defaults with the
    polling rate replaced by 500. *)
Theorem load_config_defaults :
  load_config FMissing = DEFAULT_CONFIG ∧
  load_config FUnreadable = DEFAULT_CONFIG ∧
  DEFAULT_CONFIG = mk_config [400; 800; 1600; 3200] 1 1000 0 ∧
  get_profiles DEFAULT_CONFIG = Some [400; 800; 1600; 3200] ∧
  get_active DEFAULT_CONFIG = Some 1 ∧
  dict_get DEFAULT_CONFIG (KStr "poll_rate") = Some (VInt 1000) ∧
  dict_get DEFAULT_CONFIG (KStr "lod") = Some (VInt 0) ∧
  (∀ d, config (init d FMissing) = DEFAULT_CONFIG ∧
        config (init d FUnreadable) = DEFAULT_CONFIG) ∧
  load_config (FJson (VDict [(KStr "poll_rate", VInt 500)])) =
    mk_config [400; 800; 1600; 3200] 1 500 0.
Proof. by split_and!. Qed.

(** C9, as the code has it.  From a file that parses to a JSON object
    [load_config] returns the defaults updated with every pair of the
    object: under each key the value the file gives it, the default
    where the file has none.  The four fields are always there, and so
    is every other key of the file: nothing is filtered. *)
Theorem load_config_merges (d : dict) :
  load_config (FJson (VDict d)) = dict_set_all DEFAULT_CONFIG d ∧
  (∀ k, dict_get (load_config (FJson (VDict d))) k =
        match dict_get (rev d) k with
        | Some v => Some v
        | None => dict_get DEFAULT_CONFIG k
        end) ∧
  (∀ f, f ∈ ["dpi_profiles"; "active_dpi"; "poll_rate"; "lod"] →
        is_Some (dict_get (load_config (FJson (VDict d))) (KStr f))) ∧
  (∀ k v, (k, v) ∈ d → is_Some (dict_get (load_config (FJson (VDict d))) k)).
Proof.
  assert (Hget : ∀ k, dict_get (load_config (FJson (VDict d))) k =
        match dict_get (rev d) k with
        | Some v => Some v
        | None => dict_get DEFAULT_CONFIG k
        end) by (intros k; apply dict_get_set_all).
  split_and!; [done|done|..].
  - intros f Hf. rewrite Hget. destruct (dict_get (rev d) (KStr f)); [by eexists|].
    repeat (apply elem_of_cons in Hf as [->|Hf]); try (by eexists).
    by apply elem_of_nil in Hf.
  - intros k v Hin. rewrite Hget.
    assert (Hrev : (k, v) ∈ rev d).
    { apply list_elem_of_In, in_rev. rewrite rev_involutive. by apply list_elem_of_In. }
    by destruct (dict_get_elem_of (rev d) k v Hrev) as [w ->].
Qed.

(** C9 as the specification states it fails: a file with the one key
    "theme" loads into a configuration that has that key next to the
    four fields. *)
Lemma load_keeps_unknown_key :
  ¬ (∀ k, is_Some (dict_get (load_config (FJson (VDict [(KStr "theme", VStr "dark")]))) k) →
          k ∈ [KStr "dpi_profiles"; KStr "active_dpi"; KStr "poll_rate"; KStr "lod"]).
Proof.
  intros H. specialize (H (KStr "theme") ltac:(by eexists)).
  repeat (apply elem_of_cons in H as [H|H]; [discriminate H|]).
  by apply elem_of_nil in H.
Qed.

Lemma fold_left_ext_in {A B} (f g : A → B → A) (l : list B) (a : A) :
  (∀ x acc, x ∈ l → f acc x = g acc x) → fold_left f l a = fold_left g l a.
Proof.
  revert a. induction l as [|x l IH]; intros a H; [done|]. cbn.
  rewrite (H x a) by left. apply IH. intros y acc Hy. apply H. by right.
Qed.

Lemma json_reload_ints (l : list Z) :
  json_reload (VList (VInt <$> l)) = VList (VInt <$> l).
Proof.
  cbn. f_equal. induction l as [|x l IH]; [done|]. cbn. by rewrite IH.
Qed.

Lemma json_reload_dict_stable (c : dict) :
  (∀ kv, kv ∈ c → KStr (key_str kv.1) = kv.1 ∧ json_reload kv.2 = kv.2) →
  NoDup (key_classes c) →
  json_reload (VDict c) = VDict c.
Proof.
  intros Hst Hnd. cbn [json_reload]. f_equal.
  transitivity (dict_set_all [] c).
  - unfold dict_set_all. apply fold_left_ext_in.
    intros kv acc Hkv. by destruct (Hst kv Hkv) as [-> ->].
  - by apply dict_set_all_fresh.
Qed.

Lemma mk_config_keys l i p v :
  key_classes (mk_config l i p v) =
    [CStr "dpi_profiles"; CStr "active_dpi"; CStr "poll_rate"; CStr "lod"].
Proof. done. Qed.

Lemma mk_config_stable l i p v kv :
  kv ∈ mk_config l i p v →
  KStr (key_str kv.1) = kv.1 ∧ json_reload kv.2 = kv.2 ∧
  is_Some (dict_get DEFAULT_CONFIG kv.1).
Proof.
  unfold mk_config. intros H.
  repeat (apply elem_of_cons in H as [->|H]); try (by apply elem_of_nil in H);
    (split_and!; [done| |by eexists]); try done.
  apply json_reload_ints.
Qed.

(** C10.  Saving a valid configuration and loading the file gives the
    configuration back: the result has as many keys and the same value
    under every key, and it is the very same dict when the fields were
    inserted in the order of [DEFAULT_CONFIG], as they are in every
    configuration that came from [load_config]. *)
Theorem save_load_round_trip (c : dict) (Hv : valid_config c) :
  dict_equiv (load_config (save_config c)) c ∧
  (∀ l i p v, c = mk_config l i p v → load_config (save_config c) = c).
Proof.
  destruct Hv as (l & i & p & v & Hperm & _).
  assert (Hnd : NoDup (key_classes c)).
  { rewrite (key_classes_perm _ _ Hperm), mk_config_keys.
    apply (bool_decide_unpack _). by vm_compute. }
  assert (Hmem : ∀ kv, kv ∈ c →
            KStr (key_str kv.1) = kv.1 ∧ json_reload kv.2 = kv.2 ∧
            is_Some (dict_get DEFAULT_CONFIG kv.1)).
  { intros kv Hkv. apply (mk_config_stable l i p v). by rewrite <- Hperm. }
  assert (Hload : load_config (save_config c) = dict_set_all DEFAULT_CONFIG c).
  { unfold save_config. rewrite json_reload_dict_stable; [done| |done].
    intros kv Hkv. by destruct (Hmem kv Hkv) as (? & ? & _). }
  rewrite Hload. split; [split|].
  - rewrite length_dict_set_all by (intros kv Hkv; apply (Hmem kv Hkv)).
    by rewrite Hperm.
  - intros k. rewrite dict_get_set_all.
    rewrite <- (dict_get_perm c (rev c) k Hnd) by apply Permutation_rev.
    destruct (dict_get c k) as [w|] eqn:E; [done|].
    rewrite (dict_get_perm c _ k Hnd Hperm) in E.
    unfold mk_config, DEFAULT_CONFIG in *. cbn in *.
    repeat (destruct (key_eqb _ k); [discriminate E|]). done.
  - intros l0 i0 p0 v0 ->. by vm_compute.
Qed.

Lemma save_load_round_trip_witness :
  valid_config sample_config ∧
  dict_equiv (load_config (save_config sample_config)) sample_config ∧
  load_config (save_config sample_config) = sample_config.
Proof.
  assert (Hv : valid_config sample_config).
  { exists [400; 800], 1, 500, 0. split; [done|]. split; [cbn; lia|].
    split; [|split; [unfold valid_index; cbn; lia|split; by eexists]].
    repeat constructor; try lia; [by exists 8 | by exists 16]. }
  split; [exact Hv|].
  destruct (save_load_round_trip sample_config Hv) as [H1 H2].
  split; [exact H1 | exact (H2 _ _ _ _ eq_refl)].
Defined.

(* ------------------------------------------------------------------ *)
(** ** Transport, beyond the catalog *)

Lemma pad_packet_full_length (data : list byte) :
  length (pad_packet data) = Nat.max REPORT_SIZE (length data).
Proof. unfold pad_packet. rewrite length_app, length_drop, length_replicate. lia. Qed.

(** X1.  [pad_packet] never truncates: the result has 64 bytes or the
    length of the input, whichever is larger, it starts with the input,
    and an input of 64 bytes or more comes back unchanged. *)
Theorem pad_packet_never_truncates (data : list byte) :
  length (pad_packet data) = Nat.max REPORT_SIZE (length data) ∧
  take (length data) (pad_packet data) = data ∧
  ((REPORT_SIZE <= length data)%nat → pad_packet data = data).
Proof.
  split; [|split].
  - apply pad_packet_full_length.
  - apply pad_packet_prefix.
  - intros H. unfold pad_packet. rewrite drop_ge; [by rewrite app_nil_r|].
    by rewrite length_replicate.
Qed.

(** X2.  [send] never changes whether a handle is held, not even when
    the write fails.  Without a handle it raises "Not connected" and
    writes nothing; with one it writes exactly one buffer, the report
    id 0 followed by the padded packet, and returns the result of the
    write or raises "Write failed" with the device's error text when
    the result is negative. *)
Theorem send_keeps_handle (packet : list byte) (d : BeastXDevice) :
  connected (send packet d).1 = connected d ∧
  (d = None → send packet d = (None, Raise (RuntimeError "Not connected"))) ∧
  (∀ h, d = Some h →
     ∃ h', (send packet d).1 = Some h' ∧
           hid_written h' = hid_written h ++ [x00 :: pad_packet packet] ∧
           hid_write h' = hid_write h ∧ hid_error h' = hid_error h ∧
           length (x00 :: pad_packet packet) = S (Nat.max 64 (length packet)) ∧
           (send packet d).2 =
             let res := hid_write h (length (hid_written h)) (x00 :: pad_packet packet) in
             if res <? 0 then Raise (RuntimeError ("Write failed: " +:+ hid_error h))
             else Ok res).
Proof.
  split; [|split].
  - destruct d as [h|]; [|done]. unfold send.
    by destruct (hid_write h _ _ <? 0).
  - by intros ->.
  - intros h ->. unfold send. cbn zeta.
    eexists (mkHid _ _ _).
    destruct (hid_write h _ _ <? 0); cbn; split_and!; try done;
      by rewrite pad_packet_full_length.
Qed.

(** X3.  Within each table a report belongs to one key only, and the
    one report the two tables share is that of lift-off key 0 and
    polling rate 1000. *)
Theorem reports_identify_setting :
  (∀ hz1 hz2 p, POLL_PACKETS !! hz1 = Some p → POLL_PACKETS !! hz2 = Some p → hz1 = hz2) ∧
  (∀ v1 v2 p, LOD_PACKETS !! v1 = Some p → LOD_PACKETS !! v2 = Some p → v1 = v2) ∧
  (∀ v hz p, LOD_PACKETS !! v = Some p → POLL_PACKETS !! hz = Some p → v = 0 ∧ hz = 1000).
Proof.
  split_and!.
  - intros hz1 hz2 p. unfold POLL_PACKETS. rewrite !lookup_insert, lookup_empty.
    repeat case_decide; subst; intros Hp1 Hp2; try done; by rewrite <- Hp1 in Hp2.
  - intros v1 v2 p. unfold LOD_PACKETS. rewrite !lookup_insert, lookup_empty.
    repeat case_decide; subst; intros Hp1 Hp2; try done; by rewrite <- Hp1 in Hp2.
  - intros v hz p. unfold LOD_PACKETS, POLL_PACKETS. rewrite !lookup_insert, lookup_empty.
    repeat case_decide; subst; intros Hp1 Hp2; try done; by rewrite <- Hp1 in Hp2.
Qed.

Lemma find_loop_spec (devs : list DeviceInfo) :
  match find_loop devs with
  | Some info =>
      ∃ pre post, devs = pre ++ info :: post ∧ is_config_interface info = true ∧
                  Forall (fun i => is_config_interface i = false) pre
  | None => Forall (fun i => is_config_interface i = false) devs
  end.
Proof.
  induction devs as [|i devs IH]; cbn; [done|].
  destruct (is_config_interface i) eqn:E.
  - by exists [], devs.
  - destruct (find_loop devs) as [info|].
    + destruct IH as (pre & post & -> & Hc & Hpre).
      exists (i :: pre), post. split_and!; [done|done|by constructor].
    + by constructor.
Qed.

(** X4.  [find] returns the first entry of the first enumeration that
    is a configuration interface (usage page 0xFF00 or interface 1);
    when that enumeration has none it returns the first entry of the
    second enumeration, and [None] only when the second is empty. *)
Theorem find_prefers_config_interface (devs1 devs2 : list DeviceInfo) :
  match find devs1 devs2 with
  | Some info =>
      (∃ pre post, devs1 = pre ++ info :: post ∧ is_config_interface info = true ∧
                   Forall (fun i => is_config_interface i = false) pre) ∨
      (Forall (fun i => is_config_interface i = false) devs1 ∧
       ∃ rest, devs2 = info :: rest)
  | None => Forall (fun i => is_config_interface i = false) devs1 ∧ devs2 = []
  end.
Proof.
  unfold find. pose proof (find_loop_spec devs1) as H.
  destruct (find_loop devs1) as [info|]; [by left|].
  destruct devs2 as [|i rest]; cbn; [done|]. right. split; [done|by exists rest].
Qed.

(** X5.  When [find] finds nothing, [connect] raises its "not found"
    error and leaves the handle as it was.  When [find] finds a device
    the new handle is stored before it is opened: [connected] is true
    afterwards even if opening raised, and [connect] returns [True]
    exactly when opening succeeded.  After a successful [connect]
    followed by [disconnect], a rate change raises "Not connected". *)
Theorem connect_sets_handle_before_open (env : HidEnv) (d : BeastXDevice) :
  match find (env_devs1 env) (env_devs2 env) with
  | None =>
      connect env d =
        (d, ConnRaise (RuntimeError "Beast X not found. Make sure it's plugged in via USB."))
  | Some info =>
      connected (connect env d).1 = true ∧
      ((connect env d).2 = ConnTrue ↔ ∃ h, env_open env (path info) = OpenOk h) ∧
      (∀ h msg, env_open env (path info) = OpenRaises h msg →
                connect env d = (Some h, ConnHidRaise msg)) ∧
      (∀ h, env_open env (path info) = OpenOk h →
            connect env d = (Some h, ConnTrue) ∧
            ∀ hz pkt, POLL_PACKETS !! hz = Some pkt →
              (set_poll_rate hz (disconnect (connect env d).1)).2 =
                Raise (RuntimeError "Not connected"))
  end.
Proof.
  unfold connect. destruct (find _ _) as [info|]; [|done].
  destruct (env_open env (path info)) as [h|h msg] eqn:E; cbn.
  - split_and!; try done.
    + split; [by eexists|done].
    + intros h' [= <-]. split; [done|]. intros hz pkt Hp.
      unfold set_poll_rate. by rewrite Hp.
  - split_and!; try done.
    + split; [done|by intros [? ?]].
    + by intros h' msg' [= <- <-].
Qed.

(* ------------------------------------------------------------------ *)
(** ** The handlers, beyond the claims *)

(** X6.  With two profiles or more, [_del_dpi] of an existing profile
    removes it, keeps the active index unless it now points past the
    end, where it becomes the last index, saves, and shows no toast.
    The index is not moved with the profiles: deleting at or before
    the active profile makes the following profile the active one,
    unless the active one was last. *)
Theorem del_dpi_shifts_active (a : App) (l : list Z) (i idx : Z)
    (Hp : get_profiles (config a) = Some l)
    (Ha : get_active (config a) = Some i)
    (Hlen : (2 <= length l)%nat)
    (Hidx : valid_index l idx)
    (Hi : valid_index l i) :
  ∃ a', _del_dpi idx a = Some (a', Ok tt) ∧
    get_profiles (config a') = Some (delete (Z.to_nat idx) l) ∧
    get_active (config a') = Some (Z.min i (Z.of_nat (length l) - 2)) ∧
    disk a' = save_config (config a') ∧
    toasts a' = toasts a ∧
    list_getitem (delete (Z.to_nat idx) l) (Z.min i (Z.of_nat (length l) - 2)) =
      (if (idx <=? i) && (i <? Z.of_nat (length l) - 1) then list_getitem l (i + 1)
       else if idx =? i then list_getitem l (i - 1)
       else list_getitem l i).
Proof.
  unfold valid_index in *.
  rewrite (del_dpi_eq a l i idx Hp Ha).
  assert ((Z.of_nat (length l) <=? 1) = false) as -> by (apply Z.leb_gt; lia).
  rewrite (py_index_valid _ _ Hidx). cbn zeta.
  assert (Hdl : length (delete (Z.to_nat idx) l) = (length l - 1)%nat).
  { apply length_delete, lookup_lt_is_Some. lia. }
  eexists. split; [reflexivity|]. cbn [config save set_config disk toasts].
  rewrite Hdl.
  assert (Hget : list_getitem (delete (Z.to_nat idx) l) (Z.min i (Z.of_nat (length l) - 2)) =
      (if (idx <=? i) && (i <? Z.of_nat (length l) - 1) then list_getitem l (i + 1)
       else if idx =? i then list_getitem l (i - 1)
       else list_getitem l i)).
  { unfold list_getitem. rewrite Hdl.
    rewrite (py_index_valid (length l - 1)) by lia. cbn.
    destruct (idx <=? i) eqn:E1; [apply Z.leb_le in E1|apply Z.leb_gt in E1];
      (destruct (i <? Z.of_nat (length l) - 1) eqn:E2;
         [apply Z.ltb_lt in E2|apply Z.ltb_ge in E2]); cbn.
    - rewrite (py_index_valid (length l)) by lia. cbn.
      rewrite Z.min_l by lia. rewrite list_lookup_delete_ge by lia.
      f_equal. lia.
    - destruct (idx =? i) eqn:E3; [apply Z.eqb_eq in E3|apply Z.eqb_neq in E3].
      + rewrite (py_index_valid (length l)) by lia. cbn.
        rewrite Z.min_r by lia. rewrite list_lookup_delete_lt by lia. f_equal. lia.
      + rewrite (py_index_valid (length l)) by lia. cbn.
        rewrite Z.min_r by lia. rewrite list_lookup_delete_ge by lia. f_equal. lia.
    - assert ((idx =? i) = false) as -> by (apply Z.eqb_neq; lia).
      rewrite (py_index_valid (length l)) by lia. cbn.
      rewrite Z.min_l by lia. by rewrite list_lookup_delete_lt by lia.
    - lia. }
  destruct (Z.of_nat (length l - 1) <=? i) eqn:E;
    [apply Z.leb_le in E|apply Z.leb_gt in E].
  - rewrite get_profiles_set_other by done.
    rewrite get_profiles_set_profiles, get_active_set_active.
    split_and!; try done. f_equal. lia.
  - rewrite get_profiles_set_profiles, get_active_set_profiles, Ha.
    split_and!; try done. f_equal. lia.
Qed.

Lemma del_dpi_shifts_active_witness :
  ∃ a', _del_dpi 0 fresh_app = Some (a', Ok tt) ∧
    get_profiles (config a') = Some [800; 1600; 3200] ∧
    get_active (config a') = Some 1 ∧
    list_getitem [800; 1600; 3200] 1 = Some 1600.
Proof.
  destruct (del_dpi_shifts_active fresh_app [400; 800; 1600; 3200] 1 0 eq_refl eq_refl
              ltac:(cbn; lia) ltac:(unfold valid_index; cbn; lia)
              ltac:(unfold valid_index; cbn; lia))
    as (a' & H1 & H2 & H3 & _).
  exists a'. split_and!; [exact H1|exact H2|exact H3|reflexivity].
Defined.

(** X7.  Below five profiles [_add_dpi] appends a profile of 1600 DPI,
    whatever the other profiles are, leaves the active index alone,
    and saves; it shows no toast and starts no worker. *)
Theorem add_dpi_appends_1600 (a : App) (l : list Z) (i : Z)
    (Hp : get_profiles (config a) = Some l)
    (Ha : get_active (config a) = Some i)
    (Hlen : (length l < 5)%nat) :
  ∃ a', _add_dpi a = Some (a', Ok tt) ∧
    get_profiles (config a') = Some (l ++ [1600]) ∧
    get_active (config a') = Some i ∧
    disk a' = save_config (config a') ∧
    toasts a' = toasts a ∧ threads a' = threads a ∧ device a' = device a.
Proof.
  rewrite (add_dpi_eq a l i Hp Ha).
  assert ((5 <=? Z.of_nat (length l)) = false) as -> by (apply Z.leb_gt; lia).
  eexists. split; [reflexivity|]. cbn [config save set_config disk toasts threads device].
  by rewrite get_profiles_set_profiles, get_active_set_profiles.
Qed.

Lemma add_dpi_appends_1600_witness :
  ∃ a', _add_dpi fresh_app = Some (a', Ok tt) ∧
    get_profiles (config a') = Some [400; 800; 1600; 3200; 1600] ∧
    get_active (config a') = Some 1.
Proof.
  destruct (add_dpi_appends_1600 fresh_app [400; 800; 1600; 3200] 1 eq_refl eq_refl
              ltac:(cbn; lia)) as (a' & H1 & H2 & H3 & _).
  exists a'. split_and!; [exact H1|exact H2|exact H3].
Defined.

Lemma mapM_as_int_inv (vs : list pyval) (l : list Z) :
  mapM as_int vs = Some l → vs = VInt <$> l.
Proof.
  revert l. induction vs as [|v vs IH]; intros l H.
  - by inversion H.
  - cbn in H. destruct v; try done. cbn in H.
    destruct (mapM as_int vs) as [l'|] eqn:E; [|done]. cbn in H.
    inversion H; subst. cbn. by rewrite (IH l').
Qed.

Lemma dict_set_id (d : dict) k v : dict_get d k = Some v → dict_set d k v = d.
Proof.
  induction d as [|[k0 v0] d IH]; cbn; [done|].
  destruct (key_eqb k0 k); [by intros [= ->]|]. intros H. by rewrite IH.
Qed.

Lemma set_profiles_id (c : dict) (l : list Z) :
  get_profiles c = Some l → set_profiles c l = c.
Proof.
  unfold get_profiles, set_profiles. intros H.
  destruct (dict_get c (KStr "dpi_profiles")) as [[| | | |vs|]|] eqn:E; try done.
  apply dict_set_id. by rewrite (mapM_as_int_inv _ _ H) in E.
Qed.

Lemma slide_value_monotone (x y : Z) :
  x <= y →
  Z.max 50 (Z.min 26000 (py_round_div x 50 * 50)) <=
  Z.max 50 (Z.min 26000 (py_round_div y 50 * 50)).
Proof.
  intros H.
  assert (Hr : ∀ n, ∃ t, py_round_div n 50 = t ∧
            (2 * (50 * t - n) < 50 ∨ (2 * (50 * t - n) = 50 ∧ Z.even t = true)) ∧
            (2 * (n - 50 * t) < 50 ∨ (2 * (n - 50 * t) = 50 ∧ Z.even t = true))).
  { intros n. unfold py_round_div.
    pose proof (Z.div_mod n 50 ltac:(lia)) as Hdm.
    pose proof (Z.mod_pos_bound n 50 ltac:(lia)) as Hb.
    set (q := n / 50) in *. set (r := n mod 50) in *.
    destruct (2 * r <? 50) eqn:E1; [apply Z.ltb_lt in E1; exists q; lia|].
    apply Z.ltb_ge in E1.
    destruct (50 <? 2 * r) eqn:E2; [apply Z.ltb_lt in E2; exists (q + 1); lia|].
    apply Z.ltb_ge in E2.
    destruct (Z.even q) eqn:E3.
    - exists q. split_and!; [done|left; lia|right; split; [lia|done]].
    - exists (q + 1). rewrite Z.even_add, E3.
      split_and!; [done|right; split; [lia|done]|left; lia]. }
  destruct (Hr x) as (tx & -> & Hx1 & Hx2). destruct (Hr y) as (ty & -> & Hy1 & Hy2).
  assert (tx <= ty); [|lia].
  destruct (decide (tx <= ty)) as [|Hn]; [done|]. exfalso.
  assert (tx = ty + 1) as -> by lia.
  assert (Z.even (ty + 1) = negb (Z.even ty)) as He by (rewrite Z.even_add; by destruct (Z.even ty)).
  rewrite He in Hx1, Hx2. destruct (Z.even ty); cbn in *;
    intuition (first [lia | discriminate]).
Qed.

(** X8.  For raw values that [float] converts: the value [_dpi_slide]
    stores is the raw value itself when that is a multiple of 50 in
    [50, 26000]; sliding again to the stored value changes nothing; and
    a larger raw value never stores a smaller one. *)
Theorem dpi_slide_settles (a : App) (l : list Z) (raw idx : Z)
    (Hp : get_profiles (config a) = Some l)
    (Hidx : valid_index l idx)
    (Hfl : float_overflows raw = false) :
  ∃ a1 v, _dpi_slide raw idx a = Some (a1, Ok tt) ∧
    get_profiles (config a1) = Some (<[Z.to_nat idx := v]> l) ∧
    (50 <= raw <= 26000 → (50 | raw) → v = raw) ∧
    _dpi_slide v idx a1 = Some (a1, Ok tt) ∧
    (∀ raw2, raw <= raw2 → float_overflows raw2 = false →
       ∃ a2 v2, _dpi_slide raw2 idx a = Some (a2, Ok tt) ∧
                get_profiles (config a2) = Some (<[Z.to_nat idx := v2]> l) ∧ v <= v2).
Proof.
  pose proof (py_index_valid _ _ Hidx) as Hpi.
  rewrite (dpi_slide_eq a l raw idx Hp), Hpi, Hfl.
  set (v := Z.max 50 (Z.min 26000 (py_round_div raw 50 * 50))).
  eexists _, v. split; [reflexivity|].
  cbn [config save set_config].
  assert (Hp1 : get_profiles (set_profiles (config a) (<[Z.to_nat idx:=v]> l)) =
                Some (<[Z.to_nat idx:=v]> l)) by apply get_profiles_set_profiles.
  split; [done|]. split; [|split].
  - intros Hr [k ->]. subst v. unfold py_round_div.
    rewrite Z.mod_mul, Z.div_mul by lia.
      change (2 * 0 <? 50) with true. cbn iota. lia.
  - erewrite dpi_slide_eq by (cbn [config save set_config]; exact Hp1).
    rewrite length_insert, Hpi. cbn [config save set_config].
    destruct (slide_value_props raw) as (Hb & [k Hk] & _). fold v in Hb, Hk.
    rewrite (float_overflows_small v) by lia.
    assert (Hvv : Z.max 50 (Z.min 26000 (py_round_div v 50 * 50)) = v).
    { rewrite Hk. unfold py_round_div. rewrite Z.mod_mul, Z.div_mul by lia.
      change (2 * 0 <? 50) with true. cbn iota. lia. }
    rewrite Hvv, list_insert_insert_eq.
    rewrite (set_profiles_id _ _ Hp1). done.
  - intros raw2 Hle Hfl2. rewrite (dpi_slide_eq a l raw2 idx Hp), Hpi, Hfl2.
    eexists _, _. split; [reflexivity|]. cbn [config save set_config].
    split; [apply get_profiles_set_profiles|]. by apply slide_value_monotone.
Qed.

Lemma dpi_slide_settles_witness :
  ∃ a1 v, _dpi_slide 137 0 fresh_app = Some (a1, Ok tt) ∧
    get_profiles (config a1) = Some (<[0%nat := v]> [400; 800; 1600; 3200]) ∧
    _dpi_slide v 0 a1 = Some (a1, Ok tt).
Proof.
  destruct (dpi_slide_settles fresh_app [400; 800; 1600; 3200] 137 0 eq_refl
              ltac:(unfold valid_index; cbn; lia) ltac:(by vm_compute))
    as (a1 & v & H1 & H2 & _ & H4 & _).
  exists a1, v. split_and!; [exact H1|exact H2|exact H4].
Defined.

(** X9.  No event leaves a changed configuration unsaved: after any
    event, raised or not, the configuration is the one before it or
    the file holds its dump. *)
Theorem handle_saves_every_change (ev : event) (a a' : App) (r : result unit)
    (H : handle ev a = Some (a', r)) :
  config a' = config a ∨ disk a' = save_config (config a').
Proof.
  destruct ev; cbn [handle] in H.
  - unfold _dpi_slide in H.
    destruct (float_overflows value); [inversion H; by left|].
    destruct (get_profiles (config a)) as [l|]; [|done].
    cbn in H. destruct (list_setitem l idx _); inversion H; subst; [by right|by left].
  - unfold _set_active_dpi in H.
    destruct (_render_dpi_rows _); [|done]. cbn in H.
    destruct (get_profiles _); [|done]. cbn in H.
    destruct (list_getitem _ idx); inversion H; subst; by right.
  - unfold _add_dpi in H. destruct (get_profiles (config a)) as [l|]; [|done].
    cbn in H. destruct (5 <=? _); [inversion H; by left|].
    destruct (_render_dpi_rows _); [|done]. inversion H; subst. by right.
  - unfold _del_dpi in H. destruct (get_profiles (config a)) as [l|]; [|done].
    cbn in H. destruct (_ <=? 1); [inversion H; by left|].
    destruct (list_pop l idx); [|inversion H; by left].
    destruct (get_active _); [|done]. cbn in H.
    destruct (_render_dpi_rows _); [|done]. inversion H; subst. by right.
  - inversion H; subst. by right.
  - inversion H; subst. by right.
  - unfold run_thread in H. destruct (threads a !! n) as [j|]; [|done].
    cbn in H. inversion H; subst. left.
    by destruct (run_keeps_config j e_bound (set_threads (delete n (threads a)) a)) as [-> _].
Qed.

Lemma handle_saves_every_change_witness :
  handle (EvDelDpi 0) fresh_app =
    Some (save (set_config (set_profiles (config fresh_app) [800; 1600; 3200]) fresh_app), Ok tt) ∧
  (config (save (set_config (set_profiles (config fresh_app) [800; 1600; 3200]) fresh_app))
     = config fresh_app ∨
   disk (save (set_config (set_profiles (config fresh_app) [800; 1600; 3200]) fresh_app))
     = save_config
         (config (save (set_config (set_profiles (config fresh_app) [800; 1600; 3200])
                          fresh_app)))).
Proof.
  split; [reflexivity|].
  exact (handle_saves_every_change (EvDelDpi 0) fresh_app _ _ eq_refl).
Defined.

Lemma dict_set_present (c : dict) k v :
  is_Some (dict_get c k) → NoDup (key_classes c) →
  dict_set c k v = (fun kv => if key_eqb kv.1 k then (kv.1, v) else kv) <$> c.
Proof.
  unfold key_classes. induction c as [|[k0 v0] c IH]; cbn; [by intros [? ?]|].
  intros Hs [Hk0 Hnd]%NoDup_cons.
  destruct (key_eqb k0 k) eqn:E.
  - f_equal. clear IH Hs. induction c as [|[k1 v1] c IH]; [done|]. cbn in *.
    apply NoDup_cons in Hnd as [_ Hnd]. apply not_elem_of_cons in Hk0 as [Hne Hk0].
    assert (key_eqb k1 k = false) as ->.
    { unfold key_eqb in *. apply bool_decide_eq_true in E.
      apply bool_decide_eq_false. congruence. }
    f_equal. by apply IH.
  - f_equal. by apply IH.
Qed.

Lemma mk_config_NoDup l i p v : NoDup (key_classes (mk_config l i p v)).
Proof. rewrite mk_config_keys. apply (bool_decide_unpack _). by vm_compute. Qed.

Lemma valid_shape_NoDup c l i p v : c ≡ₚ mk_config l i p v → NoDup (key_classes c).
Proof. intros H. rewrite (key_classes_perm _ _ H). apply mk_config_NoDup. Qed.

Lemma valid_shape_fields c l i p v :
  c ≡ₚ mk_config l i p v →
  get_profiles c = Some l ∧ get_active c = Some i ∧
  dict_get c (KStr "poll_rate") = Some (VInt p) ∧
  dict_get c (KStr "lod") = Some (VInt v).
Proof.
  intros H. pose proof (valid_shape_NoDup _ _ _ _ _ H) as Hnd.
  unfold get_profiles, get_active.
  rewrite !(dict_get_perm c _ _ Hnd H). cbn.
  split; [apply mapM_as_int_VInt|done].
Qed.

Lemma valid_shape_set c l i p v k w :
  c ≡ₚ mk_config l i p v → is_Some (dict_get (mk_config l i p v) k) →
  dict_set c k w ≡ₚ dict_set (mk_config l i p v) k w.
Proof.
  intros H Hs. pose proof (valid_shape_NoDup _ _ _ _ _ H) as Hnd.
  rewrite (dict_set_present c) by (by rewrite ?(dict_get_perm c _ _ Hnd H)).
  rewrite (dict_set_present (mk_config l i p v)) by (done || apply mk_config_NoDup).
  by rewrite H.
Qed.

Lemma valid_shape_set_profiles c l i p v l' :
  c ≡ₚ mk_config l i p v → set_profiles c l' ≡ₚ mk_config l' i p v.
Proof. intros H. unfold set_profiles. rewrite (valid_shape_set _ _ _ _ _ _ _ H); done. Qed.

Lemma valid_shape_set_active c l i p v i' :
  c ≡ₚ mk_config l i p v →
  dict_set c (KStr "active_dpi") (VInt i') ≡ₚ mk_config l i' p v.
Proof. intros H. rewrite (valid_shape_set _ _ _ _ _ _ _ H); done. Qed.

Lemma valid_shape_set_poll c l i p v p' :
  c ≡ₚ mk_config l i p v →
  dict_set c (KStr "poll_rate") (VInt p') ≡ₚ mk_config l i p' v.
Proof. intros H. rewrite (valid_shape_set _ _ _ _ _ _ _ H); done. Qed.

Lemma valid_shape_set_lod c l i p v v' :
  c ≡ₚ mk_config l i p v →
  dict_set c (KStr "lod") (VInt v') ≡ₚ mk_config l i p v'.
Proof. intros H. rewrite (valid_shape_set _ _ _ _ _ _ _ H); done. Qed.

Lemma shape_reloads (c : dict) l i p v :
  c ≡ₚ mk_config l i p v → dict_equiv (load_config (save_config c)) c.
Proof.
  intros Hperm.
  pose proof (valid_shape_NoDup _ _ _ _ _ Hperm) as Hnd.
  assert (Hmem : ∀ kv, kv ∈ c →
            KStr (key_str kv.1) = kv.1 ∧ json_reload kv.2 = kv.2 ∧
            is_Some (dict_get DEFAULT_CONFIG kv.1)).
  { intros kv Hkv. apply (mk_config_stable l i p v). by rewrite <- Hperm. }
  assert (Hload : load_config (save_config c) = dict_set_all DEFAULT_CONFIG c).
  { unfold save_config. rewrite json_reload_dict_stable; [done| |done].
    intros kv Hkv. by destruct (Hmem kv Hkv) as (? & ? & _). }
  rewrite Hload. split.
  - rewrite length_dict_set_all by (intros kv Hkv; apply (Hmem kv Hkv)).
    by rewrite Hperm.
  - intros k. rewrite dict_get_set_all.
    rewrite <- (dict_get_perm c (rev c) k Hnd) by apply Permutation_rev.
    destruct (dict_get c k) as [w|] eqn:E; [done|].
    rewrite (dict_get_perm c _ k Hnd Hperm) in E.
    unfold mk_config, DEFAULT_CONFIG in *. cbn in *.
    repeat (destruct (key_eqb _ k); [discriminate E|]). done.
Qed.

Lemma valid_config_reloads (c : dict) :
  valid_config c → dict_equiv (load_config (save_config c)) c.
Proof. intros (l & i & p & v & Hperm & _). by eapply shape_reloads. Qed.

Lemma restartable_saved (a : App) (c : dict) :
  valid_config c → restartable (save (set_config c a)).
Proof. intros H. split; [done|]. by apply valid_config_reloads. Qed.

Lemma RATES_in_table hz ms note : (hz, ms, note) ∈ RATES → is_Some (POLL_PACKETS !! hz).
Proof.
  unfold RATES. intros H.
  repeat (apply elem_of_cons in H as [[= -> -> ->]|H]); try (by eexists).
  by apply elem_of_nil in H.
Qed.

Lemma LOD_OPTIONS_in_table val : val ∈ LOD_OPTIONS → is_Some (LOD_PACKETS !! val).
Proof.
  unfold LOD_OPTIONS. intros H.
  repeat (apply elem_of_cons in H as [->|H]); try (by eexists).
  by apply elem_of_nil in H.
Qed.

Lemma offered_step (a : App) (ev : event) :
  restartable a → offered a ev →
  ∃ a', handle ev a = Some (a', Ok tt) ∧ restartable a'.
Proof.
  intros Hv Ho.
  destruct Hv as [Hv Hdisk].
  pose proof Hv as (l & i & p & v & Hperm & Hlen & Hall & Hi & Hpoll & Hlod).
  destruct (valid_shape_fields _ _ _ _ _ Hperm) as (Hp & Ha & _ & _).
  unfold valid_index in Hi.
  destruct ev; cbn [handle offered] in *.
  - destruct Ho as ((l0 & Hp0 & Hidx) & Hrange & _).
    rewrite Hp in Hp0. injection Hp0 as <-.
    rewrite (dpi_slide_eq a l value idx Hp), (py_index_valid _ _ Hidx).
    rewrite (float_overflows_small value) by lia.
    eexists. split; [reflexivity|]. apply restartable_saved.
    destruct (slide_value_props value) as (Hb & Hd & _).
    eexists _, i, p, v. split; [by eapply valid_shape_set_profiles|].
    unfold valid_index. rewrite !length_insert.
    split_and!; first [done | lia | by apply Forall_insert].
  - destruct Ho as (l0 & Hp0 & Hidx). rewrite Hp in Hp0. injection Hp0 as <-.
    rewrite (set_active_dpi_eq a l idx Hp). cbn zeta.
    destruct (proj2 (list_getitem_Some l idx)) as [dpi ->];
      [unfold valid_index in Hidx; lia|].
    eexists. split; [reflexivity|].
    destruct (restartable_saved a (dict_set (config a) (KStr "active_dpi") (VInt idx)))
      as [H1 H2]; [|by split].
    exists l, idx, p, v. split; [by eapply valid_shape_set_active|]. done.
  - rewrite (add_dpi_eq a l i Hp Ha).
    destruct (5 <=? Z.of_nat (length l)) eqn:E;
      [apply Z.leb_le in E|apply Z.leb_gt in E].
    + exists a. by split.
    + eexists. split; [reflexivity|]. apply restartable_saved.
      exists (l ++ [1600]), i, p, v. split; [by eapply valid_shape_set_profiles|].
      assert (Forall (fun x => 50 <= x <= 26000 ∧ (50 | x)) (l ++ [1600])).
      { apply Forall_app. split; [done|]. constructor; [|done].
        split; [lia|by exists 32]. }
      unfold valid_index. rewrite length_app. cbn.
      split_and!; first [done | lia].
  - destruct Ho as (l0 & Hp0 & Hidx). rewrite Hp in Hp0. injection Hp0 as <-.
    unfold valid_index in Hidx.
    rewrite (del_dpi_eq a l i idx Hp Ha).
    destruct (Z.of_nat (length l) <=? 1) eqn:E;
      [apply Z.leb_le in E|apply Z.leb_gt in E].
    + eexists. split; [reflexivity|]. by split.
    + rewrite (py_index_valid _ _ Hidx). cbn zeta.
      assert (Hdl : length (delete (Z.to_nat idx) l) = (length l - 1)%nat).
      { apply length_delete, lookup_lt_is_Some. lia. }
      eexists. split; [reflexivity|]. apply restartable_saved.
      assert (Hs1 : set_profiles (config a) (delete (Z.to_nat idx) l) ≡ₚ
                    mk_config (delete (Z.to_nat idx) l) i p v)
        by (by eapply valid_shape_set_profiles).
      rewrite Hdl.
      destruct (Z.of_nat (length l - 1) <=? i) eqn:Ei;
        [apply Z.leb_le in Ei|apply Z.leb_gt in Ei].
      * eexists _, _, p, v. split; [by eapply valid_shape_set_active|].
        rewrite Hdl. unfold valid_index. rewrite Hdl.
        split_and!; first [done | lia | by apply Forall_delete].
      * eexists _, i, p, v. split; [exact Hs1|].
        rewrite Hdl. unfold valid_index. rewrite Hdl.
        split_and!; first [done | lia | by apply Forall_delete].
  - destruct Ho as [ms Hin]. eexists. split; [reflexivity|].
    unfold _set_poll, _send.
    destruct (restartable_saved a (dict_set (config a) (KStr "poll_rate") (VInt hz)))
      as [H1 H2]; [|by split].
    exists l, i, hz, v. split; [by eapply valid_shape_set_poll|].
    split_and!; first [done | lia | by eapply RATES_in_table].
  - eexists. split; [reflexivity|].
    unfold _set_lod, _send.
    destruct (restartable_saved a (dict_set (config a) (KStr "lod") (VInt val)))
      as [H1 H2]; [|by split].
    exists l, i, p, val. split; [by eapply valid_shape_set_lod|].
    split_and!; first [done | lia | by apply LOD_OPTIONS_in_table].
  - unfold run_thread.
    destruct (lookup_lt_is_Some_2 (threads a) n Ho) as [j ->]. cbn.
    eexists. split; [reflexivity|]. unfold restartable.
    by destruct (run_keeps_config j e_bound (set_threads (delete n (threads a)) a))
      as [-> ->].
Qed.




Lemma reachable_restartable (a : App) : reachable a → restartable a.
Proof.
  induction 1 as [d f Hv|a a' ev r Hr IH Ho Hh].
  - by split.
  - destruct (offered_step a ev IH Ho) as (a2 & Hh2 & Hr2).
    rewrite Hh in Hh2. by injection Hh2 as -> _.
Qed.



(** X12.  With no device connected, a rate of the table is still
    stored and saved by [_set_poll]; its worker writes nothing, leaves
    the device disconnected and shows no success toast. *)
Theorem set_poll_while_disconnected (a : App) (hz : Z) (note : string) (pkt : list byte)
    (e_bound : bool)
    (Hdev : device a = None)
    (Hkey : POLL_PACKETS !! hz = Some pkt) :
  ∃ a2, run_thread (length (threads a)) e_bound (_set_poll hz note a) = Some a2 ∧
    dict_get (config a2) (KStr "poll_rate") = Some (VInt hz) ∧
    disk a2 = save_config (config a2) ∧
    device a2 = None ∧
    threads a2 = threads a ∧
    ∀ t, t ∈ toasts a2 → toast_ok t = true → t ∈ toasts a.
Proof.
  unfold run_thread, _set_poll, _send. cbn [threads set_threads save set_config].
  rewrite lookup_app_r by lia. rewrite Nat.sub_diag.
  cbn [lookup list_lookup mbind option_bind].
  eexists; split; [reflexivity|].
  unfold _run. cbn [fst snd device set_threads save set_config].
  unfold set_poll_rate. rewrite Hkey, Hdev. destruct e_bound; cbn.
  all: split_and!; try done.
  all: first [ apply dict_get_set_eq
             | by rewrite (delete_middle (threads a) []), app_nil_r
             | intros t [Ht| ->%list_elem_of_singleton]%elem_of_app; done ].
Qed.

Lemma set_poll_while_disconnected_witness :
  ∃ a2, run_thread 0 false (_set_poll 500 "Gaming" fresh_app) = Some a2 ∧
    dict_get (config a2) (KStr "poll_rate") = Some (VInt 500) ∧
    disk a2 = save_config (config a2) ∧
    device a2 = None.
Proof.
  destruct (set_poll_while_disconnected fresh_app 500 "Gaming"
           [x04; x74; x40; x06; x18; x00; x00; x00; x00; x04; x04; x04; x00; x00; x21; x00;
            x95; x01; x00; x02; x00; x00; x01; x00; x40; x06; x40; x06; x10; x00; xc8; x01]
           false eq_refl eq_refl) as (a2 & H1 & H2 & H3 & H4 & _).
  by exists a2.
Defined.

(** X13.  With a device connected and a write that does not fail,
    [_set_poll] for a rate of the table puts one buffer of 65 bytes on
    the wire, report id 0 and the padded report, stores and saves the
    rate, and shows the success toast "Polling rate → hz Hz". *)
Theorem set_poll_success (a : App) (h : HidDevice) (hz : Z) (note : string)
    (pkt : list byte) (e_bound : bool)
    (Hdev : device a = Some h)
    (Hkey : POLL_PACKETS !! hz = Some pkt)
    (Hok : 0 <= hid_write h (length (hid_written h)) (x00 :: pad_packet pkt)) :
  ∃ a2 h2, run_thread (length (threads a)) e_bound (_set_poll hz note a) = Some a2 ∧
    device a2 = Some h2 ∧
    hid_written h2 = hid_written h ++ [x00 :: pad_packet pkt] ∧
    length (x00 :: pad_packet pkt) = 65%nat ∧
    dict_get (config a2) (KStr "poll_rate") = Some (VInt hz) ∧
    disk a2 = save_config (config a2) ∧
    toasts a2 =
      toasts a ++ [mkToast ("✓  Polling rate → " +:+ py_str_int hz +:+ " Hz") true].
Proof.
  assert (Hlen : length (x00 :: pad_packet pkt) = 65%nat).
  { cbn. f_equal. apply pad_packet_length.
    revert Hkey. unfold POLL_PACKETS. rewrite !lookup_insert, lookup_empty.
    repeat case_decide; intros [= <-]; cbn; unfold REPORT_SIZE; lia. }
  unfold run_thread, _set_poll, _send. cbn [threads set_threads save set_config].
  rewrite lookup_app_r by lia. rewrite Nat.sub_diag.
  cbn [lookup list_lookup mbind option_bind].
  eexists _, _; split; [reflexivity|].
  unfold _run. cbn [fst snd device set_threads save set_config].
  unfold set_poll_rate. rewrite Hkey. unfold send. rewrite Hdev.
  assert ((hid_write h (length (hid_written h)) (x00 :: pad_packet pkt) <? 0) = false) as ->
    by (apply Z.ltb_ge; lia).
  cbn. split_and!; try done. apply dict_get_set_eq.
Qed.

Lemma set_poll_success_witness :
  ∃ a2 h2,
    run_thread 0 false (_set_poll 500 "Gaming"
                          (init (Some (mkHid (fun _ _ => 65) "" [])) FMissing)) = Some a2 ∧
    device a2 = Some h2 ∧
    length (hid_written h2) = 1%nat ∧
    toasts a2 = [mkToast "✓  Polling rate → 500 Hz" true].
Proof.
  destruct (set_poll_success (init (Some (mkHid (fun _ _ => 65) "" [])) FMissing)
              (mkHid (fun _ _ => 65) "" []) 500 "Gaming"
              [x04; x74; x40; x06; x18; x00; x00; x00; x00; x04; x04; x04; x00; x00; x21; x00;
               x95; x01; x00; x02; x00; x00; x01; x00; x40; x06; x40; x06; x10; x00; xc8; x01]
              false eq_refl eq_refl ltac:(cbn; lia))
    as (a2 & h2 & H1 & H2 & H3 & _ & _ & _ & H7).
  exists a2, h2. split; [exact H1|]. split; [exact H2|]. split; [by rewrite H3|exact H7].
Defined.

(** X14.  For a value that is no lift-off key the device call
    [set_lod] raises [ValueError] at once, before it looks at the
    connection.  [_set_lod] has no check of its own: it has stored and
    saved the value by then, and its worker leaves device,
    configuration and file alone and shows no success toast. *)
Theorem set_lod_invalid_key (a : App) (val : Z) (e_bound : bool)
    (Hkey : val ∉ LOD_OPTIONS) :
  (∀ d, set_lod val d = (d, Raise (ValueError ("Invalid LOD: " +:+ py_str_int val)))) ∧
  dict_get (config (_set_lod val a)) (KStr "lod") = Some (VInt val) ∧
  disk (_set_lod val a) = save_config (config (_set_lod val a)) ∧
  ∃ a2, run_thread (length (threads a)) e_bound (_set_lod val a) = Some a2 ∧
    device a2 = device a ∧
    config a2 = config (_set_lod val a) ∧
    disk a2 = disk (_set_lod val a) ∧
    ∀ t, t ∈ toasts a2 → toast_ok t = true → t ∈ toasts a.
Proof.
  assert (Hn : LOD_PACKETS !! val = None).
  { unfold LOD_OPTIONS in Hkey. revert Hkey.
    rewrite !elem_of_cons, elem_of_nil. intros Hkey.
    unfold LOD_PACKETS. rewrite !lookup_insert, lookup_empty.
    repeat case_decide; subst; try done; exfalso; apply Hkey; auto. }
  split; [|split; [|split]].
  - intros d. unfold set_lod. by rewrite Hn.
  - apply dict_get_set_eq.
  - reflexivity.
  - unfold run_thread, _set_lod, _send. cbn [threads set_threads save set_config].
    rewrite lookup_app_r by lia. rewrite Nat.sub_diag.
    cbn [lookup list_lookup mbind option_bind].
    eexists; split; [reflexivity|].
    unfold _run. cbn [fst snd device set_threads save set_config].
    unfold set_lod. rewrite Hn. destruct e_bound; cbn.
    all: split_and!; try done.
    intros t [Ht| ->%list_elem_of_singleton]%elem_of_app; done.
Qed.

Lemma set_lod_invalid_key_witness :
  (2 ∉ LOD_OPTIONS) ∧
  (∀ d, set_lod 2 d = (d, Raise (ValueError "Invalid LOD: 2"))) ∧
  dict_get (config (_set_lod 2 fresh_app)) (KStr "lod") = Some (VInt 2).
Proof.
  assert (H : 2 ∉ LOD_OPTIONS).
  { unfold LOD_OPTIONS. rewrite !elem_of_cons, elem_of_nil. lia. }
  split; [exact H|].
  destruct (set_lod_invalid_key fresh_app 2 false H) as (H1 & H2 & _).
  split; [exact H1 | exact H2].
Defined.

(** X15.  With a device connected and a write that does not fail,
    [_set_lod] for a key of the table writes one buffer, report id 0
    and the 64-byte report starting with 0x04, stores and saves the
    value, and shows "Lift-off → 1mm" for key 0 and "Lift-off → 2mm"
    otherwise. *)
Theorem set_lod_success (a : App) (h : HidDevice) (val : Z) (pkt : list byte)
    (e_bound : bool)
    (Hdev : device a = Some h)
    (Hkey : LOD_PACKETS !! val = Some pkt)
    (Hok : 0 <= hid_write h (length (hid_written h)) (x00 :: pad_packet pkt)) :
  ∃ a2 h2, run_thread (length (threads a)) e_bound (_set_lod val a) = Some a2 ∧
    device a2 = Some h2 ∧
    hid_written h2 = hid_written h ++ [x00 :: pad_packet pkt] ∧
    length (pad_packet pkt) = 64%nat ∧
    pad_packet pkt !! 0%nat = Some x04 ∧
    dict_get (config a2) (KStr "lod") = Some (VInt val) ∧
    disk a2 = save_config (config a2) ∧
    toasts a2 =
      toasts a ++ [mkToast ("✓  Lift-off → " +:+ (if val =? 0 then "1mm" else "2mm")) true].
Proof.
  assert (Hpkt : length (pad_packet pkt) = 64%nat ∧ pad_packet pkt !! 0%nat = Some x04).
  { revert Hkey. unfold LOD_PACKETS. rewrite !lookup_insert, lookup_empty.
    repeat case_decide; intros [= <-]; done. }
  destruct Hpkt as [Hl H0].
  unfold run_thread, _set_lod, _send. cbn [threads set_threads save set_config].
  rewrite lookup_app_r by lia. rewrite Nat.sub_diag.
  cbn [lookup list_lookup mbind option_bind].
  eexists _, _; split; [reflexivity|].
  unfold _run. cbn [fst snd device set_threads save set_config].
  unfold set_lod. rewrite Hkey. unfold send. rewrite Hdev.
  assert ((hid_write h (length (hid_written h)) (x00 :: pad_packet pkt) <? 0) = false) as ->
    by (apply Z.ltb_ge; lia).
  cbn. split_and!; try done. apply dict_get_set_eq.
Qed.

Lemma set_lod_success_witness :
  ∃ a2 h2,
    run_thread 0 false
      (_set_lod 1 (init (Some (mkHid (fun _ _ => 65) "" [])) FMissing)) = Some a2 ∧
    device a2 = Some h2 ∧
    length (hid_written h2) = 1%nat ∧
    toasts a2 = [mkToast "✓  Lift-off → 2mm" true].
Proof.
  destruct (set_lod_success (init (Some (mkHid (fun _ _ => 65) "" [])) FMissing)
              (mkHid (fun _ _ => 65) "" []) 1
              [x04; x72; x3d; x06; x18; x00; x00; x00; x00; x04; x04; x04; x00; x00; x21; x00;
               x95; x01; x00; x03; x00; x01; x01; x00; x40; x06; x40; x06; x10; x00; xc8; x01]
              false eq_refl eq_refl ltac:(cbn; lia))
    as (a2 & h2 & H1 & H2 & H3 & _ & _ & _ & _ & H8).
  exists a2, h2. split; [exact H1|]. split; [exact H2|]. split; [by rewrite H3|exact H8].
Defined.

Lemma load_config_fields (f : file) (field : string) :
  field ∈ ["dpi_profiles"; "active_dpi"; "poll_rate"; "lod"] →
  is_Some (dict_get (load_config f) (KStr field)).
Proof.
  intros Hf.
  assert (Hd : is_Some (dict_get DEFAULT_CONFIG (KStr field))).
  { repeat (apply elem_of_cons in Hf as [->|Hf]); try (by eexists).
    by apply elem_of_nil in Hf. }
  assert (Hm : ∀ pairs, is_Some (dict_get (dict_set_all DEFAULT_CONFIG pairs) (KStr field))).
  { intros pairs. rewrite dict_get_set_all.
    by destruct (dict_get (rev pairs) (KStr field)); [eexists|]. }
  destruct f as [| |data]; cbn [load_config]; try done.
  destruct data as [|b|z|s|items|d]; cbn [dict_update]; try done;
    first [ by destruct s
          | by (destruct (mapM pair_of_item items); cbn; [apply Hm|])
          | apply Hm ].
Qed.

(* ------------------------------------------------------------------ *)
(** ** Loading, beyond the claims *)

(** X16.  Whatever the file is, missing, unreadable or any JSON
    document, the configuration [load_config] returns has all four
    fields. *)
Theorem load_config_has_all_fields (f : file) (field : string)
    (Hf : field ∈ ["dpi_profiles"; "active_dpi"; "poll_rate"; "lod"]) :
  is_Some (dict_get (load_config f) (KStr field)).
Proof. by apply load_config_fields. Qed.

Lemma load_config_has_all_fields_witness :
  "lod" ∈ ["dpi_profiles"; "active_dpi"; "poll_rate"; "lod"] ∧
  is_Some (dict_get (load_config (FJson (VList [VStr "ab"]))) (KStr "lod")).
Proof.
  assert (H : "lod" ∈ ["dpi_profiles"; "active_dpi"; "poll_rate"; "lod"])
    by (do 3 right; left).
  split; [exact H|].
  exact (load_config_has_all_fields (FJson (VList [VStr "ab"])) "lod" H).
Defined.

(** X17.  A JSON document that is [null], a boolean, a number or a
    string loads as the defaults.  An array of [key, value] pairs loads
    like the object with those members, and an array with one element
    that is not a pair loads as the defaults, valid pairs before it
    included. *)
Theorem load_config_other_documents :
  load_config (FJson VNone) = DEFAULT_CONFIG ∧
  (∀ b, load_config (FJson (VBool b)) = DEFAULT_CONFIG) ∧
  (∀ z, load_config (FJson (VInt z)) = DEFAULT_CONFIG) ∧
  (∀ s, load_config (FJson (VStr s)) = DEFAULT_CONFIG) ∧
  (∀ kvs : list (string * pyval),
     load_config (FJson (VList ((fun kv => VList [VStr kv.1; kv.2]) <$> kvs))) =
     load_config (FJson (VDict ((fun kv => (KStr kv.1, kv.2)) <$> kvs)))) ∧
  (∀ items item,
     item ∈ items → pair_of_item item = None →
     load_config (FJson (VList items)) = DEFAULT_CONFIG).
Proof.
  split_and!; try done.
  - by intros [|? ?].
  - intros kvs. cbn [load_config dict_update].
    assert (mapM pair_of_item ((fun kv => VList [VStr kv.1; kv.2]) <$> kvs) =
            Some ((fun kv => (KStr kv.1, kv.2)) <$> kvs)) as ->; [|done].
    induction kvs as [|[k v] kvs IH]; [done|]. cbn. cbn in IH. by rewrite IH.
  - intros items item Hin Hnone. cbn [load_config dict_update].
    destruct (mapM pair_of_item items) as [pairs|] eqn:E; [|done]. exfalso.
    assert (Hs : is_Some (mapM pair_of_item items)) by (by eexists).
    apply mapM_is_Some in Hs. rewrite Forall_forall in Hs.
    destruct (Hs item Hin) as [x Hx]. cbn in Hx. congruence.
Qed.

(* ------------------------------------------------------------------ *)
(** ** Start-up and the window *)

(** The rate buttons are the rates that have a report. *)
Lemma rate_buttons_match_reports (hz : Z) :
  is_Some (POLL_PACKETS !! hz) ↔ ∃ note, dict_get _rate_btns (KInt hz) = Some (VStr note).
Proof.
  rewrite POLL_PACKETS_dom, !elem_of_cons, elem_of_nil.
  split.
  - intros H. repeat (destruct H as [->|H]; [by eexists|]). done.
  - intros [note H]. revert H. unfold _rate_btns, RATES. cbn. unfold key_eqb. cbn.
    repeat (case_bool_decide; [simplify_eq; intros _; tauto|]). done.
Qed.

Lemma startup_cases (f : file) (l : list Z) (i p : Z) :
  get_profiles (load_config f) = Some l →
  get_active (load_config f) = Some i →
  dict_get (load_config f) (KStr "poll_rate") = Some (VInt p) →
  (¬ is_Some (POLL_PACKETS !! p) → startup f = Some (BuildRaises BuildKeyError)) ∧
  (is_Some (POLL_PACKETS !! p) →
   ¬ (- Z.of_nat (length l) <= i < Z.of_nat (length l)) →
   startup f = Some (BuildRaises BuildIndexError)) ∧
  (is_Some (POLL_PACKETS !! p) →
   - Z.of_nat (length l) <= i < Z.of_nat (length l) →
   ∃ w, startup f = Some (Built w) ∧
        app w = init None f ∧
        status_label w = ("● Disconnected", DIM) ∧
        conn_btn w = "Connect" ∧
        connecting w = [AutoTry] ∧
        shown_page w = Some "dpi" ∧
        (info_labels w).*1 = ["active_dpi"; "poll_rate"; "lod"]).
Proof.
  intros Hp Ha Hr.
  destruct (load_config_fields f "lod" ltac:(do 3 right; left)) as [vl Hl].
  unfold startup. cbn [init config].
  rewrite (render_ok _ l i Hp Ha). cbn [mbind option_bind].
  unfold _build_page_polling. rewrite Hr. cbn [key_of_val].
  pose proof (rate_buttons_match_reports p) as Hrb.
  destruct (dict_get _rate_btns (KInt p)) as [note|] eqn:En.
  2:{ split_and!; [done| |]; intros Hs; apply Hrb in Hs as [? ?]; done. }
  destruct (decide (is_Some (POLL_PACKETS !! p))) as [Hs|Hs].
  2:{ split_and!; try done.
      intros _. destruct note; try done. exfalso. apply Hs, Hrb. by eexists. }
  destruct (proj1 Hrb Hs) as [note' [= ->]].
  unfold _build_page_lod. rewrite Hl.
  unfold _build_page_info. cbn [build_tiles]. unfold info_getter. cbn [String.eqb].
  cbn. rewrite Hp, Ha, Hr, Hl. cbn.
  pose proof (list_getitem_Some l i) as Hg.
  destruct (list_getitem l i) as [dpi|].
  - split_and!; [done| |].
    + intros _ Hn. destruct Hn. apply Hg. by eexists.
    + intros _ _. eexists. split; [reflexivity|]. done.
  - split_and!; [done|done|].
    intros _ Hi. apply Hg in Hi as [? ?]. done.
Qed.

(** X18.  What start-up does with a loaded configuration whose profiles
    are ints and whose active index and polling rate are ints: it
    raises [KeyError] in the polling page when the rate has no button;
    otherwise [IndexError] in the info page when the active index is
    outside [-len, len); otherwise the window is built on the loaded
    configuration, disconnected, showing the dpi page, with one
    reconnect thread started. *)
Theorem startup_from_loaded_config (f : file) (l : list Z) (i p : Z)
    (Hp : get_profiles (load_config f) = Some l)
    (Ha : get_active (load_config f) = Some i)
    (Hr : dict_get (load_config f) (KStr "poll_rate") = Some (VInt p)) :
  (¬ is_Some (POLL_PACKETS !! p) → startup f = Some (BuildRaises BuildKeyError)) ∧
  (is_Some (POLL_PACKETS !! p) →
   ¬ (- Z.of_nat (length l) <= i < Z.of_nat (length l)) →
   startup f = Some (BuildRaises BuildIndexError)) ∧
  (is_Some (POLL_PACKETS !! p) →
   - Z.of_nat (length l) <= i < Z.of_nat (length l) →
   ∃ w, startup f = Some (Built w) ∧
        app w = init None f ∧
        status_label w = ("● Disconnected", DIM) ∧
        conn_btn w = "Connect" ∧
        connecting w = [AutoTry] ∧
        shown_page w = Some "dpi" ∧
        (info_labels w).*1 = ["active_dpi"; "poll_rate"; "lod"]).
Proof. by apply startup_cases. Qed.

Lemma startup_from_loaded_config_witness :
  ∃ w, startup FMissing = Some (Built w) ∧ app w = init None FMissing ∧
       conn_btn w = "Connect" ∧ connecting w = [AutoTry].
Proof.
  destruct (startup_from_loaded_config FMissing [400; 800; 1600; 3200] 1 1000
              eq_refl eq_refl eq_refl) as (_ & _ & H).
  destruct (H ltac:(by eexists) ltac:(cbn; lia)) as (w & H1 & H2 & _ & H4 & H5 & _).
  exists w. by split_and!.
Defined.

Lemma dict_equiv_fields (c1 c2 : dict) :
  dict_equiv c1 c2 →
  get_profiles c1 = get_profiles c2 ∧ get_active c1 = get_active c2 ∧
  dict_get c1 (KStr "poll_rate") = dict_get c2 (KStr "poll_rate").
Proof. intros [_ H]. unfold get_profiles, get_active. by rewrite !H. Qed.

(** X19.  From the file of any state a session can reach, the
    application starts again, with the same configuration, no device,
    no toast and no worker. *)
Theorem reachable_states_restart (a : App) (Hr : reachable a) :
  ∃ w, startup (disk a) = Some (Built w) ∧
       dict_equiv (config (app w)) (config a) ∧
       device (app w) = None ∧ toasts (app w) = [] ∧ threads (app w) = [].
Proof.
  destruct (reachable_restartable a Hr) as [Hv He].
  destruct Hv as (l & i & p & v & Hperm & _ & _ & Hi & Hpoll & _).
  destruct (valid_shape_fields _ _ _ _ _ Hperm) as (Hp & Ha & Hrate & _).
  destruct (dict_equiv_fields _ _ He) as (E1 & E2 & E3).
  rewrite <- E1 in Hp. rewrite <- E2 in Ha. rewrite <- E3 in Hrate.
  destruct (startup_cases (disk a) l i p Hp Ha Hrate) as (_ & _ & H).
  unfold valid_index in Hi.
  destruct (H Hpoll ltac:(lia)) as (w & H1 & H2 & _).
  exists w. rewrite H2. by split_and!.
Qed.

Lemma reachable_states_restart_witness :
  reachable fresh_app ∧
  ∃ w, startup (disk fresh_app) = Some (Built w) ∧
       dict_equiv (config (app w)) (config fresh_app).
Proof.
  assert (Hr : reachable fresh_app).
  { apply reach_init. exists [400; 800; 1600; 3200], 1, 1000, 0.
    split; [done|]. unfold valid_index. cbn.
    split_and!; try lia; try (by eexists).
    repeat constructor; try lia;
      [by exists 8 | by exists 16 | by exists 32 | by exists 64]. }
  split; [exact Hr|].
  destruct (reachable_states_restart fresh_app Hr) as (w & H1 & H2 & _).
  by exists w.
Defined.

(** X20.  A rate outside the table that [_set_poll] has stored blocks
    the next start: the saved file makes start-up raise [KeyError]. *)
Theorem invalid_rate_blocks_restart (a : App) (hz : Z) (note : string)
    (Hv : restartable a)
    (Hkey : hz ∉ [125; 250; 500; 1000; 2000; 4000]) :
  startup (disk (_set_poll hz note a)) = Some (BuildRaises BuildKeyError).
Proof.
  destruct Hv as [(l & i & p & v & Hperm & _) _].
  pose proof (valid_shape_set_poll _ _ _ _ _ hz Hperm) as Hperm'.
  destruct (valid_shape_fields _ _ _ _ _ Hperm') as (Hp & Ha & Hrate & _).
  destruct (dict_equiv_fields _ _ (shape_reloads _ _ _ _ _ Hperm')) as (E1 & E2 & E3).
  rewrite <- E1 in Hp. rewrite <- E2 in Ha. rewrite <- E3 in Hrate.
  apply (startup_cases _ l i hz Hp Ha Hrate).
  by rewrite POLL_PACKETS_dom.
Qed.

Lemma invalid_rate_blocks_restart_witness :
  startup (disk (_set_poll 7 "" fresh_app)) = Some (BuildRaises BuildKeyError).
Proof.
  apply (invalid_rate_blocks_restart fresh_app 7 "").
  - split; [|done]. exists [400; 800; 1600; 3200], 1, 1000, 0.
    split; [done|]. unfold valid_index. cbn.
    split_and!; try lia; try (by eexists).
    repeat constructor; try lia;
      [by exists 8 | by exists 16 | by exists 32 | by exists 64].
  - rewrite !elem_of_cons, elem_of_nil. lia.
Defined.

(** X21.  An index outside [-len, len) that [_set_active_dpi] has
    stored before raising blocks the next start: the saved file makes
    start-up raise [IndexError]. *)
Theorem out_of_range_active_blocks_restart (a : App) (l : list Z) (idx : Z)
    (Hv : restartable a)
    (Hp : get_profiles (config a) = Some l)
    (Hidx : ¬ (- Z.of_nat (length l) <= idx < Z.of_nat (length l))) :
  ∃ a', _set_active_dpi idx a = Some (a', Raise (IndexError "list index out of range")) ∧
        startup (disk a') = Some (BuildRaises BuildIndexError).
Proof.
  destruct Hv as [(l0 & i & p & v & Hperm & _ & _ & _ & Hpoll & _) _].
  destruct (valid_shape_fields _ _ _ _ _ Hperm) as (Hp0 & _).
  rewrite Hp in Hp0. injection Hp0 as <-.
  rewrite (set_active_dpi_eq a l idx Hp). cbn zeta.
  pose proof (list_getitem_Some l idx) as Hg.
  destruct (list_getitem l idx) as [dpi|]; [destruct Hidx; apply Hg; by eexists|].
  eexists. split; [reflexivity|]. cbn [disk save set_config config].
  pose proof (valid_shape_set_active _ _ _ _ _ idx Hperm) as Hperm'.
  destruct (valid_shape_fields _ _ _ _ _ Hperm') as (Hp' & Ha' & Hrate & _).
  destruct (dict_equiv_fields _ _ (shape_reloads _ _ _ _ _ Hperm')) as (E1 & E2 & E3).
  rewrite <- E1 in Hp'. rewrite <- E2 in Ha'. rewrite <- E3 in Hrate.
  by apply (startup_cases _ l idx p Hp' Ha' Hrate).
Qed.

Lemma out_of_range_active_blocks_restart_witness :
  ∃ a', _set_active_dpi 7 fresh_app =
          Some (a', Raise (IndexError "list index out of range")) ∧
        startup (disk a') = Some (BuildRaises BuildIndexError).
Proof.
  apply (out_of_range_active_blocks_restart fresh_app [400; 800; 1600; 3200] 7).
  - split; [|done]. exists [400; 800; 1600; 3200], 1, 1000, 0.
    split; [done|]. unfold valid_index. cbn.
    split_and!; try lia; try (by eexists).
    repeat constructor; try lia;
      [by exists 8 | by exists 16 | by exists 32 | by exists 64].
  - reflexivity.
  - cbn. lia.
Defined.

Lemma build_tiles_keys (keys : list string) (c : dict) tiles :
  build_tiles keys c = Some (Built tiles) → tiles.*1 = keys.
Proof.
  revert tiles. induction keys as [|key keys IH]; intros tiles H; cbn in H.
  - by injection H as <-.
  - destruct (info_getter key c) as [[text|e]|]; try done. cbn in H.
    destruct (build_tiles keys c) as [[ts|e]|]; try done. cbn in H.
    injection H as <-. cbn. by rewrite (IH ts).
Qed.

(** X22.  [_refresh_info] never updates a tile: the tiles
    [_build_page_info] makes have the keys "active_dpi", "poll_rate"
    and "lod", never "info", so the guard returns at once, and showing
    the info page leaves the texts computed at start-up, whatever the
    configuration has become. *)
Theorem refresh_info_never_updates (c0 c : dict) (tiles : list (string * string))
    (Hb : _build_page_info c0 = Some (Built tiles)) :
  _refresh_info tiles c = Some (Built tiles) ∧
  ∀ w, info_labels w = tiles → config (app w) = c →
       _show_page "info" w =
         Some (Built (mkWindow (app w) (status_label w) (conn_btn w) tiles (Some "info")
                               (connecting w))).
Proof.
  assert (Hr : _refresh_info tiles c = Some (Built tiles)).
  { unfold _refresh_info. rewrite (build_tiles_keys _ _ _ Hb).
    by rewrite bool_decide_eq_false_2
      by (rewrite !elem_of_cons, elem_of_nil; intuition discriminate). }
  split; [done|]. intros w Hw Hc. unfold _show_page. cbn [String.eqb].
  cbn. rewrite Hw, Hc, Hr. done.
Qed.

Lemma refresh_info_never_updates_witness :
  _refresh_info [("active_dpi", "800"); ("poll_rate", "1000 Hz"); ("lod", "1mm")]
                (mk_config [400; 3200] 1 4000 1) =
    Some (Built [("active_dpi", "800"); ("poll_rate", "1000 Hz"); ("lod", "1mm")]).
Proof.
  exact (proj1 (refresh_info_never_updates DEFAULT_CONFIG (mk_config [400; 3200] 1 4000 1)
                  [("active_dpi", "800"); ("poll_rate", "1000 Hz"); ("lod", "1mm")]
                  eq_refl)).
Defined.

(** X23.  When the mouse is found but opening it raises, [_do_connect]
    leaves status label and button as they were and shows the error
    at most as a failure toast, yet a handle is held.  The next click
    on the button therefore disconnects instead of connecting, and
    only the click after that starts a new attempt. *)
Theorem failed_open_needs_second_click (w : Window) (env : HidEnv) (info : DeviceInfo)
    (h : HidDevice) (msg : string) (e_bound : bool)
    (Hd : device (app w) = None)
    (Hf : find (env_devs1 env) (env_devs2 env) = Some info)
    (Ho : env_open env (path info) = OpenRaises h msg) :
  status_label (_do_connect env e_bound w) = status_label w ∧
  conn_btn (_do_connect env e_bound w) = conn_btn w ∧
  device (app (_do_connect env e_bound w)) = Some h ∧
  toasts (app (_do_connect env e_bound w)) =
    (if e_bound then toasts (app w) ++ [mkToast msg false] else toasts (app w)) ∧
  connecting (_toggle_connect (_do_connect env e_bound w)) = connecting w ∧
  device (app (_toggle_connect (_do_connect env e_bound w))) = None ∧
  conn_btn (_toggle_connect (_do_connect env e_bound w)) = "Connect" ∧
  connecting (_toggle_connect (_toggle_connect (_do_connect env e_bound w))) =
    connecting w ++ [DoConnect].
Proof.
  unfold _do_connect, connect. rewrite Hf, Ho. by destruct e_bound.
Qed.

Lemma failed_open_needs_second_click_witness :
  device (app (_do_connect locked_env false fresh_window)) =
    Some (mkHid (fun _ _ => -1) "" []) ∧
  conn_btn (_do_connect locked_env false fresh_window) = "Connect" ∧
  connecting (_toggle_connect (_do_connect locked_env false fresh_window)) = [] ∧
  connecting (_toggle_connect (_toggle_connect (_do_connect locked_env false fresh_window))) =
    [DoConnect].
Proof.
  destruct (failed_open_needs_second_click fresh_window locked_env sample_info
              (mkHid (fun _ _ => -1) "" []) "open failed" false eq_refl eq_refl eq_refl)
    as (_ & H2 & H3 & _ & H5 & _ & _ & H8).
  split_and!; [exact H3|exact H2|exact H5|exact H8].
Defined.

(** X24.  A connect thread that succeeds holds the handle, sets the
    status to "Connected" and the button to "Disconnect" and shows
    "Mouse connected"; the button then disconnects, resets status and
    button and shows nothing.  A thread that fails changes neither
    status nor button; the one of [_auto_reconnect] shows nothing, the
    one of the button nothing or the error text as a failure toast. *)
Theorem connect_threads_report (w : Window) (env : HidEnv) (e_bound : bool) :
  match connect env (device (app w)) with
  | (d', ConnTrue) =>
      _do_connect env e_bound w = _try env w ∧
      device (app (_try env w)) = d' ∧ connected d' = true ∧
      status_label (_try env w) = ("● Connected", ACCENT) ∧
      conn_btn (_try env w) = "Disconnect" ∧
      toasts (app (_try env w)) = toasts (app w) ++ [mkToast "Mouse connected" true] ∧
      device (app (_toggle_connect (_try env w))) = None ∧
      status_label (_toggle_connect (_try env w)) = ("● Disconnected", DIM) ∧
      conn_btn (_toggle_connect (_try env w)) = "Connect" ∧
      toasts (app (_toggle_connect (_try env w))) = toasts (app (_try env w))
  | (d', r) =>
      toasts (app (_try env w)) = toasts (app w) ∧
      toasts (app (_do_connect env e_bound w)) =
        (if e_bound then toasts (app w) ++ [mkToast (connect_error_text r) false]
         else toasts (app w)) ∧
      status_label (_try env w) = status_label w ∧
      conn_btn (_try env w) = conn_btn w ∧
      status_label (_do_connect env e_bound w) = status_label w ∧
      conn_btn (_do_connect env e_bound w) = conn_btn w ∧
      device (app (_try env w)) = d' ∧ device (app (_do_connect env e_bound w)) = d'
  end.
Proof.
  unfold _do_connect, _try.
  destruct (connect env (device (app w))) as [d' [|e|m]] eqn:E; cbn;
    try (by destruct e_bound).
  assert (Hc : connected d' = true).
  { revert E. unfold connect. destruct (find _ _) as [info|]; [|done].
    destruct (env_open env (path info)); intros [= <-]; done. }
  unfold _toggle_connect. cbn. rewrite Hc. cbn. done.
Qed.
